(** * bot.py: a Telegram bot that shows the sections of a planner

    The bot is one Python module on top of aiogram 2.  At import time it
    reads its token and [content.json] into module globals; afterwards the
    dispatcher feeds every update to the first registered handler whose
    filter accepts it.  This file embeds the module in Gallina:

    - [Json]     the values [json.load] produces;
    - [Loader]   the top-level statements that fill the globals;
    - [Str]      [str.startswith] and [str.split(sep, 1)];
    - [Aiogram]  the markup containers and the requests sent to Telegram;
    - the [Bot] monad, the keyboard helpers and the handlers, in the order
      in which bot.py registers them;
    - the properties of routing, rendering and loading. *)

From stdpp Require Import base option list gmap strings.
From Stdlib Require Import ZArith Ascii.

Set Warnings "-register-all".
Local Open Scope string_scope.
Local Open Scope list_scope.

(** ** Values of [content.json] *)

Module Json.

(** What [json.load] returns: [None], [bool], [int], [str], [list], [dict].
    A [dict] is a finite map on its keys (the parser has already resolved
    repeated keys).  Numbers are the integers; a decimal literal, which
    Python reads as a float, is not represented. *)
Inductive json : Type :=
  | JNull
  | JBool (b : bool)
  | JInt (n : Z)
  | JStr (s : string)
  | JArr (l : list json)
  | JObj (d : gmap string json).

(** [d.get(key, default)] *)
Definition get (d : gmap string json) (key : string) (dflt : json) : json :=
  default dflt (d !! key).

(** [d.get(key)]: the default is [None]. *)
Definition get_none (d : gmap string json) (key : string) : json :=
  get d key JNull.

End Json.

Import Json.

(** ** Exceptions *)

(** The exceptions that the module's own statements and the calls to
    Telegram can raise. *)
Inductive exn : Type :=
  | RuntimeError (msg : string)
  | OSError
  | JSONDecodeError
  | AttributeError
  | TypeError
  | KeyError (key : string)
  | ValueError
  | StopIteration
  | ValidationError
  | TelegramAPIError.

Inductive result (A : Type) : Type :=
  | Ok (a : A)
  | Raise (e : exn).

Arguments Ok {A} a.
Arguments Raise {A} e.

Definition is_ok {A : Type} (r : result A) : bool :=
  match r with Ok _ => true | Raise _ => false end.

(** ** Import-time statements (bot.py, lines 8-30) *)

Module Loader.

(** The process environment after [load_dotenv()], as far as the module
    reads it. *)
Record Environ : Type := {
  env_BOT_TOKEN : option string;
  env_INTERFACE_MODE : option string
}.

(** What [open("content.json")] followed by [json.load(f)] gives: the file
    cannot be opened, its text is not JSON, or it is a document.  A file
    whose bytes are not UTF-8 fails in [json.load] too, with
    [UnicodeDecodeError]; it is counted with [Malformed], so this type tells
    that the read failed, not always with which [ValueError]. *)
Inductive content_file : Type :=
  | Unreadable
  | Malformed
  | Document (v : json).

(** The module globals once the import has run. *)
Record Globals : Type := {
  TOKEN : string;
  INTERFACE_MODE : json;
  CONTENT : gmap string json;
  SECTIONS : json;
  BUY_URL : json;
  CONTACT_URL : json;
  WELCOME_TEXT : json
}.

(** Lines 9-11: [TOKEN = os.getenv("BOT_TOKEN")], [if not TOKEN: raise]. *)
Definition read_token (env : Environ) : result string :=
  match env_BOT_TOKEN env with
  | None => Raise (RuntimeError "BOT_TOKEN not set in environment (create .env with BOT_TOKEN=...)")
  | Some tok =>
      if String.eqb tok ""
      then Raise (RuntimeError "BOT_TOKEN not set in environment (create .env with BOT_TOKEN=...)")
      else Ok tok
  end.

(** Lines 21-22: [with open(...) as f: CONTENT = json.load(f)]. *)
Definition json_load (file : content_file) : result json :=
  match file with
  | Unreadable => Raise OSError
  | Malformed => Raise JSONDecodeError
  | Document v => Ok v
  end.

(** Lines 24-25.  [getenv_mode] is the value of line 14.  [CONTENT.get] is
    reached only when the override is unset, and exists only on a dict. *)
Definition interface_mode (getenv_mode : option string) (content : json) : result json :=
  match getenv_mode with
  | Some v => Ok (JStr v)
  | None =>
      match content with
      | JObj d => Ok (get d "interface_mode" (JStr "menu"))
      | _ => Raise AttributeError
      end
  end.

(** Line 27: [CONTENT["sections"]].  Subscripting anything but a dict with a
    string is a [TypeError]; a dict without the key is a [KeyError]. *)
Definition subscript_sections (content : json) : result (gmap string json * json) :=
  match content with
  | JObj d =>
      match d !! "sections" with
      | Some v => Ok (d, v)
      | None => Raise (KeyError "sections")
      end
  | _ => Raise TypeError
  end.

(** Lines 14 and 21-30, the content load. *)
Definition load (getenv_mode : option string) (file : content_file) (tok : string)
  : result Globals :=
  match json_load file with
  | Raise e => Raise e
  | Ok content =>
      match interface_mode getenv_mode content with
      | Raise e => Raise e
      | Ok mode =>
          match subscript_sections content with
          | Raise e => Raise e
          | Ok (d, sections) =>
              Ok {| TOKEN := tok;
                    INTERFACE_MODE := mode;
                    CONTENT := d;
                    SECTIONS := sections;
                    BUY_URL := get_none d "buy_url";
                    CONTACT_URL := get_none d "contact_url";
                    WELCOME_TEXT := get d "welcome_text" (JStr "Привет!") |}
          end
      end
  end.

(** Line 17: [bot = Bot(token=TOKEN)].  The constructor hands the token to
    aiogram's [check_token], which raises [ValidationError] on a token it
    does not accept.  The check belongs to the library: [check_token] stands
    for it. *)
Definition make_bot (check_token : string → bool) (tok : string) : result string :=
  if check_token tok then Ok tok else Raise ValidationError.

(** The import as a whole: the token is read (9-11), the bot is built (17),
    then the content is loaded (21-30).  Lines 16 and 18 configure the logger
    and build the [Dispatcher]; neither inspects anything nor raises. *)
Definition startup (check_token : string → bool) (env : Environ) (file : content_file)
  : result Globals :=
  match read_token env with
  | Raise e => Raise e
  | Ok tok =>
      match make_bot check_token tok with
      | Raise e => Raise e
      | Ok _ => load (env_INTERFACE_MODE env) file tok
      end
  end.

End Loader.

(** ** [str] methods *)

Module Str.

(** [s.startswith(p)] *)
Fixpoint startswith (s p : string) {struct p} : bool :=
  match p with
  | EmptyString => true
  | String c p' =>
      match s with
      | EmptyString => false
      | String c' s' => Ascii.eqb c' c && startswith s' p'
      end
  end.

(** [s.partition(sep)] for a one-character separator, when [sep] occurs:
    the text before the first occurrence and the text after it. *)
Fixpoint partition (sep : Ascii.ascii) (s : string) : option (string * string) :=
  match s with
  | EmptyString => None
  | String c rest =>
      if Ascii.eqb c sep then Some (EmptyString, rest)
      else
        match partition sep rest with
        | Some (before, after) => Some (String c before, after)
        | None => None
        end
  end.

(** [s.split(sep, 1)]: at most one cut, at the first separator. *)
Definition split1 (sep : Ascii.ascii) (s : string) : list string :=
  match partition sep s with
  | Some (before, after) => [before; after]
  | None => [s]
  end.

(** [_, x = parts]: unpacking to two targets. *)
Definition unpack2 (parts : list string) : result (string * string) :=
  match parts with
  | [a; b] => Ok (a, b)
  | _ => Raise ValueError
  end.

(** [str(v)] inside an f-string, for a value that is a [str] or [None]. *)
Definition format (v : option string) : string :=
  match v with
  | Some s => s
  | None => "None"
  end.

(** [bool(v)] for a value that is a [str] or [None]. *)
Definition truthy (v : option string) : bool :=
  match v with
  | Some s => negb (String.eqb s "")
  | None => false
  end.

End Str.

(** ** aiogram: markup and requests *)

Module Aiogram.

Record KeyboardButton : Type := {
  kb_text : string
}.

Record InlineKeyboardButton : Type := {
  ikb_text : string;
  callback_data : option string;
  url : option string
}.

(** The rows of a markup and its [row_width].  [ReplyKeyboardMarkup] and
    [InlineKeyboardMarkup] share the three methods below. *)
Section Rows.
Context {B : Type}.

(** The loop of [add]: cut [args] into rows of [row_width] buttons.
    [index] counts from 1, [row] is the row being filled. *)
Fixpoint add_loop (row_width : nat) (rows : list (list B)) (row : list B)
    (index : nat) (args : list B) : list (list B) * list B :=
  match args with
  | [] => (rows, row)
  | button :: args' =>
      let row' := row ++ [button] in
      if Nat.eqb (index mod row_width) 0
      then add_loop row_width (rows ++ [row']) [] (S index) args'
      else add_loop row_width rows row' (S index) args'
  end.

(** [markup.add(button, ...)] *)
Definition add (row_width : nat) (rows : list (list B)) (args : list B) : list (list B) :=
  let '(rows', row) := add_loop row_width rows [] 1 args in
  match row with
  | [] => rows'
  | _ => rows' ++ [row]
  end.

(** [markup.row(button, ...)] *)
Definition row (rows : list (list B)) (args : list B) : list (list B) :=
  rows ++ [args].

(** [markup.insert(button)]: into the last row while it has room. *)
Definition insert (row_width : nat) (rows : list (list B)) (button : B) : list (list B) :=
  match last rows with
  | Some r =>
      if Nat.ltb (length r) row_width
      then removelast rows ++ [r ++ [button]]
      else add row_width rows [button]
  | None => add row_width rows [button]
  end.

End Rows.

Record ReplyKeyboardMarkup : Type := {
  keyboard : list (list KeyboardButton);
  resize_keyboard : bool;
  reply_row_width : nat
}.

Record InlineKeyboardMarkup : Type := {
  inline_keyboard : list (list InlineKeyboardButton);
  inline_row_width : nat
}.

(** Both constructors default [row_width] to 3. *)
Definition new_reply (resize : bool) : ReplyKeyboardMarkup :=
  {| keyboard := []; resize_keyboard := resize; reply_row_width := 3 |}.

Definition new_inline (row_width : nat) : InlineKeyboardMarkup :=
  {| inline_keyboard := []; inline_row_width := row_width |}.

Definition reply_add (kb : ReplyKeyboardMarkup) (args : list KeyboardButton) : ReplyKeyboardMarkup :=
  {| keyboard := add (reply_row_width kb) (keyboard kb) args;
     resize_keyboard := resize_keyboard kb;
     reply_row_width := reply_row_width kb |}.

Definition reply_row (kb : ReplyKeyboardMarkup) (args : list KeyboardButton) : ReplyKeyboardMarkup :=
  {| keyboard := row (keyboard kb) args;
     resize_keyboard := resize_keyboard kb;
     reply_row_width := reply_row_width kb |}.

Definition inline_add (ikb : InlineKeyboardMarkup) (args : list InlineKeyboardButton)
  : InlineKeyboardMarkup :=
  {| inline_keyboard := add (inline_row_width ikb) (inline_keyboard ikb) args;
     inline_row_width := inline_row_width ikb |}.

Definition inline_insert (ikb : InlineKeyboardMarkup) (button : InlineKeyboardButton)
  : InlineKeyboardMarkup :=
  {| inline_keyboard := insert (inline_row_width ikb) (inline_keyboard ikb) button;
     inline_row_width := inline_row_width ikb |}.

(** A [reply_markup] argument. *)
Inductive Markup : Type :=
  | Reply (kb : ReplyKeyboardMarkup)
  | Inline (ikb : InlineKeyboardMarkup).

(** Every button of an inline markup, row after row. *)
Definition inline_buttons (ikb : InlineKeyboardMarkup) : list InlineKeyboardButton :=
  concat (inline_keyboard ikb).

(** The updates the dispatcher hands to the handlers. *)
Record Message : Type := {
  chat_id : Z;
  text : option string
}.

Record CallbackQuery : Type := {
  query_id : string;
  data : option string;
  message_chat_id : Z
}.

Inductive Update : Type :=
  | UMessage (m : Message)
  | UCallback (c : CallbackQuery).

(** The calls to the Bot API that the module makes. *)
Inductive Request : Type :=
  | send_message_req (chat : Z) (txt : string) (reply_markup : option Markup)
  | send_photo_req (chat : Z) (photo : string) (caption : string) (reply_markup : option Markup)
  | answer_callback_query_req (query : string) (alert : option string) (show_alert : bool).

(** Telegram as the module sees it: a request is carried out, or the call
    raises. *)
Definition Transport : Type := Request → bool.

End Aiogram.

Import Aiogram.

(** ** The content the handlers work on *)

Module Content.

(** One entry of ["sections"] in the content format: [id] and [title] are
    read by subscript, the other keys with [.get].  [text], [image] and
    [more_text] are strings when present, [has_more] a boolean. *)
Record PlannerSection : Type := {
  id : string;
  title : string;
  text : option string;
  image : option string;
  has_more : option bool;
  more_text : option string
}.

(** The document [CONTENT]. *)
Record Document : Type := {
  interface_mode : option string;
  welcome_text : option string;
  buy_url : option string;
  contact_url : option string;
  sections : list PlannerSection
}.

(** A required string. *)
Definition str (v : option json) : option string :=
  match v with
  | Some (JStr s) => Some s
  | _ => None
  end.

(** A string that may be left out. *)
Definition opt_str (v : option json) : option (option string) :=
  match v with
  | None => Some None
  | Some (JStr s) => Some (Some s)
  | _ => None
  end.

(** A string read with [.get(key)]: a missing key and [null] both read as
    [None]. *)
Definition nullable_str (v : json) : option (option string) :=
  match v with
  | JNull => Some None
  | JStr s => Some (Some s)
  | _ => None
  end.

Definition opt_bool (v : option json) : option (option bool) :=
  match v with
  | None => Some None
  | Some (JBool b) => Some (Some b)
  | _ => None
  end.

(** A JSON entry in the content format, as a record. *)
Definition section_of_json (v : json) : option PlannerSection :=
  match v with
  | JObj d =>
      i ← str (d !! "id");
      t ← str (d !! "title");
      x ← opt_str (d !! "text");
      im ← nullable_str (get_none d "image");
      h ← opt_bool (d !! "has_more");
      mt ← nullable_str (get_none d "more_text");
      Some {| id := i; title := t; text := x; image := im; has_more := h; more_text := mt |}
  | _ => None
  end.

Definition sections_of_json (v : json) : option (list PlannerSection) :=
  match v with
  | JArr l => mapM section_of_json l
  | _ => None
  end.

Definition document_of_json (d : gmap string json) : option Document :=
  m ← opt_str (d !! "interface_mode");
  w ← opt_str (d !! "welcome_text");
  b ← nullable_str (get_none d "buy_url");
  c ← nullable_str (get_none d "contact_url");
  ss ← d !! "sections" ≫= sections_of_json;
  Some {| interface_mode := m; welcome_text := w; buy_url := b; contact_url := c;
          sections := ss |}.

End Content.

(** ** The lookups on the values as loaded *)

Module Raw.

(** [v[key]] with a string key: only a dict can be subscripted so, and only
    on a key it has. *)
Definition subscript (v : json) (key : string) : result json :=
  match v with
  | JObj d =>
      match d !! key with
      | Some x => Ok x
      | None => Raise (KeyError key)
      end
  | _ => Raise TypeError
  end.

(** [v == wanted] for a string [wanted]. *)
Definition eq_str (v : json) (wanted : string) : bool :=
  match v with
  | JStr t => String.eqb t wanted
  | _ => false
  end.

(** [next((s for s in sections if s[key] == wanted), None)] over the entries
    as loaded: the generator subscripts the entries one after the other and
    stops at the first match. *)
Fixpoint next_by (key wanted : string) (sections : list json) : result (option json) :=
  match sections with
  | [] => Ok None
  | s :: rest =>
      match subscript s key with
      | Raise e => Raise e
      | Ok v => if eq_str v wanted then Ok (Some s) else next_by key wanted rest
      end
  end.

End Raw.

(** The module globals the handlers read, with the content format's types. *)
Record Globals : Type := {
  INTERFACE_MODE : string;
  CONTENT : Content.Document;
  SECTIONS : list Content.PlannerSection;
  BUY_URL : option string;
  CONTACT_URL : option string;
  WELCOME_TEXT : string
}.

(** The loaded globals as the handlers see them; [None] when a value is
    outside the content format. *)
Definition typed (g : Loader.Globals) : option Globals :=
  mode ← Content.str (Some (Loader.INTERFACE_MODE g));
  doc ← Content.document_of_json (Loader.CONTENT g);
  ss ← Content.sections_of_json (Loader.SECTIONS g);
  b ← Content.nullable_str (Loader.BUY_URL g);
  c ← Content.nullable_str (Loader.CONTACT_URL g);
  w ← Content.str (Some (Loader.WELCOME_TEXT g));
  Some {| INTERFACE_MODE := mode; CONTENT := doc; SECTIONS := ss;
          BUY_URL := b; CONTACT_URL := c; WELCOME_TEXT := w |}.

(** ** The handler monad *)

(** What a handler leaves behind: requests Telegram carried out, requests
    it refused, and lines written with [logging.exception]. *)
Inductive Effect : Type :=
  | Delivered (r : Request)
  | Refused (r : Request)
  | Logged (msg : string).

#[projections(primitive)] Record Run (A : Type) : Type := {
  effects : list Effect;
  globals : Globals;
  outcome : result A
}.

Arguments effects {A} _.
Arguments globals {A} _.
Arguments outcome {A} _.

(** A coroutine of the module: it runs against Telegram with the module
    globals in scope, leaves effects, and returns or raises. *)
Definition Bot (A : Type) : Type := Transport → Globals → Run A.

#[export] Instance bot_ret : MRet Bot := λ A a _ g,
  {| effects := []; globals := g; outcome := Ok a |}.

#[export] Instance bot_bind : MBind Bot := λ A B k m tr g,
  let r := m tr g in
  match outcome r with
  | Ok a =>
      let r' := k a tr (globals r) in
      {| effects := effects r ++ effects r'; globals := globals r'; outcome := outcome r' |}
  | Raise e => {| effects := effects r; globals := globals r; outcome := Raise e |}
  end.

(** Reading a module global. *)
Definition global {X : Type} (name : Globals → X) : Bot X := λ _ g,
  {| effects := []; globals := g; outcome := Ok (name g) |}.

Definition raise {A : Type} (e : exn) : Bot A := λ _ g,
  {| effects := []; globals := g; outcome := Raise e |}.

(** [await bot.<method>(...)] *)
Definition call (r : Request) : Bot unit := λ tr g,
  if tr r
  then {| effects := [Delivered r]; globals := g; outcome := Ok tt |}
  else {| effects := [Refused r]; globals := g; outcome := Raise TelegramAPIError |}.

Definition logging_exception (msg : string) : Bot unit := λ _ g,
  {| effects := [Logged msg]; globals := g; outcome := Ok tt |}.

(** [try: body  except Exception as e: handler] *)
Definition try_except {A : Type} (body : Bot A) (handler : exn → Bot A) : Bot A := λ tr g,
  let r := body tr g in
  match outcome r with
  | Ok a => r
  | Raise e =>
      let r' := handler e tr (globals r) in
      {| effects := effects r ++ effects r'; globals := globals r'; outcome := outcome r' |}
  end.

(** The content messages among the effects: what reached the chat. *)
Definition is_message (r : Request) : bool :=
  match r with
  | send_message_req _ _ _ | send_photo_req _ _ _ _ => true
  | answer_callback_query_req _ _ _ => false
  end.

Fixpoint delivered_messages (es : list Effect) : list Request :=
  match es with
  | [] => []
  | Delivered r :: es' =>
      if is_message r then r :: delivered_messages es' else delivered_messages es'
  | _ :: es' => delivered_messages es'
  end.

(** The [reply_markup] a request carries. *)
Definition request_markup (r : Request) : option Markup :=
  match r with
  | send_message_req _ _ reply_markup | send_photo_req _ _ _ reply_markup => reply_markup
  | answer_callback_query_req _ _ _ => None
  end.

(** The requests made, carried out or not, in order. *)
Fixpoint requests (es : list Effect) : list Request :=
  match es with
  | [] => []
  | Delivered r :: es' | Refused r :: es' => r :: requests es'
  | Logged _ :: es' => requests es'
  end.

(** ** Keyboards (bot.py, lines 33-62) *)

Definition build_menu_keyboard : ReplyKeyboardMarkup :=
  let kb := new_reply true in
  let kb := reply_add kb [{| kb_text := "Выбрать раздел" |}] in
  let kb := reply_add kb [{| kb_text := "Купить планер" |}] in
  let kb := reply_add kb [{| kb_text := "Связаться с автором" |}] in
  let kb := reply_add kb [{| kb_text := "Помощь" |}] in
  kb.

(** The [for i, s in enumerate(SECTIONS, start=1)] loop: the keyboard and
    the row under construction after the sections from position [i] on. *)
Fixpoint sections_rows (kb : ReplyKeyboardMarkup) (row : list KeyboardButton) (i : nat)
    (ss : list Content.PlannerSection) : ReplyKeyboardMarkup * list KeyboardButton :=
  match ss with
  | [] => (kb, row)
  | s :: ss' =>
      let row := row ++ [{| kb_text := Content.title s |}] in
      if Nat.eqb (i mod 2) 0
      then sections_rows (reply_row kb row) [] (S i) ss'
      else sections_rows kb row (S i) ss'
  end.

Definition build_sections_reply_keyboard (g : Globals) : ReplyKeyboardMarkup :=
  let kb := new_reply true in
  let '(kb, row) := sections_rows kb [] 1 (SECTIONS g) in
  let kb := match row with [] => kb | _ => reply_row kb row end in
  let kb := reply_add kb [{| kb_text := "Назад" |}] in
  kb.

Definition build_inline_sections_keyboard (g : Globals) : InlineKeyboardMarkup :=
  let ikb := new_inline 2 in
  let ikb :=
    fold_left
      (λ ikb s,
         inline_insert ikb
           {| ikb_text := Content.title s;
              callback_data := Some ("sect|" +:+ Content.id s);
              url := None |})
      (SECTIONS g) ikb in
  let ikb := inline_add ikb
    [{| ikb_text := "Купить планер"; callback_data := None; url := BUY_URL g |}] in
  let ikb := inline_add ikb
    [{| ikb_text := "Связаться с автором"; callback_data := None; url := CONTACT_URL g |}] in
  ikb.

(** ** Calls on the bot, a message and a callback query *)

(** [bot.send_message(chat_id, text, reply_markup=...)] *)
Definition bot_send_message (chat : Z) (txt : string) (reply_markup : option Markup) : Bot unit :=
  call (send_message_req chat txt reply_markup).

(** [bot.send_photo(chat_id, photo=..., caption=..., reply_markup=...)] *)
Definition bot_send_photo (chat : Z) (photo caption : string) (reply_markup : option Markup)
  : Bot unit :=
  call (send_photo_req chat photo caption reply_markup).

(** [message.answer(text, reply_markup=...)]: a message to the chat the
    update came from. *)
Definition message_answer (m : Message) (txt : string) (reply_markup : option Markup) : Bot unit :=
  bot_send_message (chat_id m) txt reply_markup.

(** [call.answer(text, show_alert=...)] *)
Definition call_answer (c : CallbackQuery) (alert : option string) (show_alert : bool) : Bot unit :=
  call (answer_callback_query_req (query_id c) alert show_alert).

(** [m.text == label] *)
Definition text_is (m : Message) (label : string) : bool :=
  match Aiogram.text m with
  | Some t => String.eqb t label
  | None => false
  end.

(** [next((s for s in SECTIONS if s["id"] == sid), None)] *)
Definition section_by_id (ss : list Content.PlannerSection) (sid : string)
  : option Content.PlannerSection :=
  List.find (λ s, String.eqb (Content.id s) sid) ss.

(** [next(s for s in SECTIONS if s["title"] == title)], with [title] the
    text of a message.  Without a match [next] raises [StopIteration], which
    Python turns into a [RuntimeError] when it leaves a coroutine. *)
Definition section_by_title (ss : list Content.PlannerSection) (m : Message)
  : option Content.PlannerSection :=
  List.find (λ s, text_is m (Content.title s)) ss.

(** [call.data.split("|", 1)] unpacked to [_, sid]. *)
Definition callback_sid (c : CallbackQuery) : Bot string :=
  match data c with
  | None => raise AttributeError
  | Some d =>
      match Str.unpack2 (Str.split1 "|"%char d) with
      | Ok (_, sid) => mret sid
      | Raise e => raise e
      end
  end.

(** ** The section sender (bot.py, lines 149-161) *)

Definition send_section (chat : Z) (section : Content.PlannerSection)
    (reply_markup : option Markup) : Bot unit :=
  let caption := default "" (Content.text section) in
  let image := Content.image section in
  returned ←
    (if Str.truthy image
     then
       try_except
         (bot_send_photo chat (default "" image) caption reply_markup;; mret true)
         (λ _, logging_exception "Failed to send image; will send text only.";; mret false)
     else mret false);
  if returned : bool then mret tt
  else bot_send_message chat caption reply_markup.

(** ** Handlers (bot.py, lines 65-146 and 164-166) *)

Section Handlers.

(** aiogram's [commands=[...]] filter: whether a message is one of the
    listed commands.  The filter belongs to the library; the handlers only
    register it. *)
Variable is_command : list string → Message → bool.

Definition cmd_start (message : Message) : Bot unit :=
  let kb := build_menu_keyboard in
  content ← global CONTENT;
  welcome ← global WELCOME_TEXT;
  message_answer message (default welcome (Content.welcome_text content)) (Some (Reply kb)).

Definition cmd_help (message : Message) : Bot unit :=
  let txt := "Этот бот показывает примеры заполнения разделов планера.
Нажми «Выбрать раздел» и выбери нужный." in
  message_answer message txt None.

Definition show_sections_menu (message : Message) : Bot unit :=
  mode ← global INTERFACE_MODE;
  if String.eqb mode "menu"
  then
    kb ← global build_sections_reply_keyboard;
    message_answer message "Выберите раздел:" (Some (Reply kb))
  else
    ikb ← global build_inline_sections_keyboard;
    message_answer message "Выберите раздел:" (Some (Inline ikb)).

Definition buy_handler (message : Message) : Bot unit :=
  buy ← global BUY_URL;
  message_answer message ("Перейти на маркетплейс: " +:+ Str.format buy) None.

Definition contact_handler (message : Message) : Bot unit :=
  contact ← global CONTACT_URL;
  message_answer message ("Связаться: " +:+ Str.format contact) None.

Definition help_text (message : Message) : Bot unit :=
  cmd_help message.

Definition back_handler (message : Message) : Bot unit :=
  let kb := build_menu_keyboard in
  message_answer message "Главное меню:" (Some (Reply kb)).

Definition section_selected (message : Message) : Bot unit :=
  ss ← global SECTIONS;
  match section_by_title ss message with
  | None => raise (RuntimeError "coroutine raised StopIteration")
  | Some section => send_section (chat_id message) section None
  end.

(** The detail keyboard of lines 121-124. *)
Definition detail_keyboard (section : Content.PlannerSection) : InlineKeyboardMarkup :=
  let ikb := new_inline 3 in
  let ikb :=
    if default false (Content.has_more section)
    then inline_add ikb
           [{| ikb_text := "Подробнее";
               callback_data := Some ("more|" +:+ Content.id section);
               url := None |}]
    else ikb in
  let ikb := inline_add ikb
    [{| ikb_text := "Назад"; callback_data := Some "back_to_menu"; url := None |}] in
  ikb.

Definition inline_section_callback (c : CallbackQuery) : Bot unit :=
  sid ← callback_sid c;
  ss ← global SECTIONS;
  match section_by_id ss sid with
  | None => call_answer c (Some "Раздел не найден") true
  | Some section =>
      call_answer c None false;;
      let ikb := detail_keyboard section in
      send_section (message_chat_id c) section (Some (Inline ikb))
  end.

Definition inline_more_callback (c : CallbackQuery) : Bot unit :=
  sid ← callback_sid c;
  ss ← global SECTIONS;
  match section_by_id ss sid with
  | None => call_answer c (Some "Раздел не найден") true
  | Some section =>
      call_answer c None false;;
      let more_text :=
        if Str.truthy (Content.more_text section)
        then default "" (Content.more_text section)
        else "Дополнительная информация отсутствует." in
      bot_send_message (message_chat_id c) more_text None
  end.

Definition back_callback (c : CallbackQuery) : Bot unit :=
  call_answer c None false;;
  mode ← global INTERFACE_MODE;
  if String.eqb mode "menu"
  then
    let kb := build_menu_keyboard in
    bot_send_message (message_chat_id c) "Главное меню:" (Some (Reply kb))
  else
    ikb ← global build_inline_sections_keyboard;
    bot_send_message (message_chat_id c) "Выберите раздел:" (Some (Inline ikb)).

Definition echo (message : Message) : Bot unit :=
  message_answer message "Не понимаю. Нажми «Выбрать раздел» или /help." None.

(** ** Dispatch *)

(** The filter of [section_selected]:
    [any(m.text == s["title"] for s in SECTIONS)]. *)
Definition any_title (ss : list Content.PlannerSection) (m : Message) : bool :=
  existsb (λ s, text_is m (Content.title s)) ss.

(** The filters of the callback handlers: [c.data and
    c.data.startswith(prefix)]. *)
Definition data_startswith (c : CallbackQuery) (p : string) : bool :=
  match data c with
  | Some d => negb (String.eqb d "") && Str.startswith d p
  | None => false
  end.

Definition data_is (c : CallbackQuery) (payload : string) : bool :=
  match data c with
  | Some d => String.eqb d payload
  | None => false
  end.

(** No [message_handler] of the module names [content_types], so each
    carries aiogram's default: text messages only.  A message without text
    (a photo, a sticker, ...) passes no filter, [echo]'s included. *)
Definition is_text (m : Message) : bool :=
  match Aiogram.text m with
  | Some _ => true
  | None => false
  end.

(** The message handlers in the order of their registration: the first
    whose filters accept the message runs, the others are not tried; a
    message that no handler accepts is left unhandled. *)
Definition route_message (m : Message) : Bot unit :=
  if negb (is_text m) then mret tt
  else if is_command ["start"] m then cmd_start m
  else if is_command ["help"] m then cmd_help m
  else if text_is m "Выбрать раздел" then show_sections_menu m
  else if text_is m "Купить планер" then buy_handler m
  else if text_is m "Связаться с автором" then contact_handler m
  else if text_is m "Помощь" then help_text m
  else if text_is m "Назад" then back_handler m
  else
    ss ← global SECTIONS;
    if any_title ss m then section_selected m
    else echo m.

(** The callback handlers likewise; a query that no filter accepts is left
    unhandled. *)
Definition route_callback (c : CallbackQuery) : Bot unit :=
  if data_startswith c "sect|" then inline_section_callback c
  else if data_startswith c "more|" then inline_more_callback c
  else if data_is c "back_to_menu" then back_callback c
  else mret tt.

Definition process_update (u : Update) : Bot unit :=
  match u with
  | UMessage m => route_message m
  | UCallback c => route_callback c
  end.

(** Polling: the updates one after the other, each against Telegram as it
    is at that moment, on the globals the earlier ones left.  An exception
    in a handler ends that update only. *)
Fixpoint polling (g : Globals) (updates : list (Update * Transport))
  : list (list Effect * result unit) * Globals :=
  match updates with
  | [] => ([], g)
  | (u, tr) :: rest =>
      let r := process_update u tr g in
      let '(outs, g') := polling (globals r) rest in
      ((effects r, outcome r) :: outs, g')
  end.

End Handlers.

(** The fixed labels of the reply keyboards. *)
Definition fixed_labels : list string :=
  ["Выбрать раздел"; "Купить планер"; "Связаться с автором"; "Помощь"; "Назад"].

(** The handler registered for a fixed label. *)
Definition fixed_handler (label : string) (m : Message) : Bot unit :=
  if String.eqb label "Выбрать раздел" then show_sections_menu m
  else if String.eqb label "Купить планер" then buy_handler m
  else if String.eqb label "Связаться с автором" then contact_handler m
  else if String.eqb label "Помощь" then help_text m
  else back_handler m.

(** A message that is neither command: free text. *)
Definition free_text (is_command : list string → Message → bool) (m : Message) : Prop :=
  is_command ["start"] m = false ∧ is_command ["help"] m = false.

(** A command filter for concrete runs: the text is [/name] for a listed
    name. *)
Definition slash_command (names : list string) (m : Message) : bool :=
  existsb (λ n, text_is m ("/" +:+ n)) names.

(** ** The globals under another mode, and sample content *)

Definition with_mode (mode : string) (g : Globals) : Globals :=
  {| INTERFACE_MODE := mode;
     CONTENT := CONTENT g;
     SECTIONS := SECTIONS g;
     BUY_URL := BUY_URL g;
     CONTACT_URL := CONTACT_URL g;
     WELCOME_TEXT := WELCOME_TEXT g |}.

(** Telegram carrying out every request, and refusing every request. *)
Definition accept_all : Transport := λ _, true.
Definition refuse_all : Transport := λ _, false.

(** Telegram refusing photos only. *)
Definition refuse_photos : Transport := λ r,
  match r with
  | send_photo_req _ _ _ _ => false
  | _ => true
  end.

(** A section with a picture and a detail text, and one with neither. *)
Definition wings : Content.PlannerSection :=
  {| Content.id := "a"; Content.title := "Wings"; Content.text := Some "Wing design";
     Content.image := None; Content.has_more := Some false; Content.more_text := None |}.

Definition habits : Content.PlannerSection :=
  {| Content.id := "b"; Content.title := "Habits"; Content.text := Some "Habit tracker";
     Content.image := Some "https://example.org/habits.png";
     Content.has_more := Some true; Content.more_text := Some "Fill one row per habit." |}.

(** A section whose title is the label of the back button. *)
Definition back_titled : Content.PlannerSection :=
  {| Content.id := "c"; Content.title := "Назад"; Content.text := Some "Notes";
     Content.image := None; Content.has_more := None; Content.more_text := Some "" |}.

Definition sample_globals (mode : string) (ss : list Content.PlannerSection) : Globals :=
  {| INTERFACE_MODE := mode;
     CONTENT := {| Content.interface_mode := Some mode; Content.welcome_text := None;
                   Content.buy_url := Some "https://example.org/buy";
                   Content.contact_url := None; Content.sections := ss |};
     SECTIONS := ss;
     BUY_URL := Some "https://example.org/buy";
     CONTACT_URL := None;
     WELCOME_TEXT := "Привет!" |}.

(** The section and the globals that loading [sound_document] gives: no
    picture, no [has_more], no detail text, no links. *)
Definition wings_loaded : Content.PlannerSection :=
  {| Content.id := "a"; Content.title := "Wings"; Content.text := Some "Wing design";
     Content.image := None; Content.has_more := None; Content.more_text := None |}.

Definition sample_loaded (ss : list Content.PlannerSection) : Globals :=
  {| INTERFACE_MODE := "inline";
     CONTENT := {| Content.interface_mode := Some "inline"; Content.welcome_text := None;
                   Content.buy_url := None; Content.contact_url := None;
                   Content.sections := ss |};
     SECTIONS := ss;
     BUY_URL := None;
     CONTACT_URL := None;
     WELCOME_TEXT := "Привет!" |}.

Definition text_message (chat : Z) (body : string) : Message :=
  {| chat_id := chat; Aiogram.text := Some body |}.

Definition callback (chat : Z) (payload : string) : CallbackQuery :=
  {| query_id := "q1"; data := Some payload; message_chat_id := chat |}.

(** The JSON of an entry, and two documents: one sound, one with the same
    [id] and the same [title] twice and an entry without keys. *)
Definition entry (i t x : string) : json :=
  JObj (<["id" := JStr i]> (<["title" := JStr t]> (<["text" := JStr x]> ∅))).

Definition sound_document : json :=
  JObj (<["interface_mode" := JStr "inline"]>
        (<["sections" := JArr [entry "a" "Wings" "Wing design"]]> ∅)).

(** The key/value map of [sound_document]. *)
Definition sound_map : gmap string json :=
  <["interface_mode" := JStr "inline"]>
    (<["sections" := JArr [entry "a" "Wings" "Wing design"]]> ∅).

Definition duplicate_sections : json :=
  JArr [entry "a" "Wings" "Wing design"; entry "a" "Wings" "Tail design"].

Definition duplicate_document : json :=
  JObj (<["sections" := duplicate_sections]> ∅).

(** The key/value map of [duplicate_document]. *)
Definition duplicate_map : gmap string json :=
  <["sections" := duplicate_sections]> ∅.

Definition keyless_document : json :=
  JObj (<["sections" := JArr [JObj ∅]]> ∅).

(** A token check for concrete runs: digits, a colon, a non-empty secret
    -- the shape of a Bot API token. *)
Definition digits_colon_secret (tok : string) : bool :=
  match Str.partition ":"%char tok with
  | Some (digits, secret) =>
      negb (String.eqb digits "") && negb (String.eqb secret "")
      && forallb (λ c, (48 <=? nat_of_ascii c)%nat && (nat_of_ascii c <=? 57)%nat)
           (String.list_ascii_of_string digits)
  | None => false
  end.

Definition sample_environ (mode : option string) : Loader.Environ :=
  {| Loader.env_BOT_TOKEN := Some "123:abc"; Loader.env_INTERFACE_MODE := mode |}.

(** ** Reference layout and request addressing *)

(** A list cut into rows of two, the odd one out on a last row of its own:
    the layout that "two per row" names. *)
Fixpoint chunks2 {A : Type} (l : list A) : list (list A) :=
  match l with
  | [] => []
  | [a] => [[a]]
  | a :: b :: rest => [a; b] :: chunks2 rest
  end.

(** The inline button that [build_inline_sections_keyboard] makes for a
    section (line 59). *)
Definition section_button (s : Content.PlannerSection) : InlineKeyboardButton :=
  {| ikb_text := Content.title s;
     callback_data := Some ("sect|" +:+ Content.id s);
     url := None |}.

(** The chat a message request goes to, the query an acknowledgement
    answers. *)
Definition request_chat (r : Request) : option Z :=
  match r with
  | send_message_req chat _ _ | send_photo_req chat _ _ _ => Some chat
  | answer_callback_query_req _ _ _ => None
  end.

Definition request_query (r : Request) : option string :=
  match r with
  | answer_callback_query_req query _ _ => Some query
  | _ => None
  end.

(** The number of content messages a run delivered. *)
Definition sent {A : Type} (r : Run A) : nat :=
  length (delivered_messages (effects r)).

(** A run that raises does so with [TelegramAPIError], after a request that
    Telegram refused. *)
Definition refusal_only {A : Type} (tr : Transport) (r : Run A) : Prop :=
  ∀ e, outcome r = Raise e →
       e = TelegramAPIError ∧ ∃ q, Refused q ∈ effects r ∧ tr q = false.

(** * Properties *)

(** ** Running the monad *)

Ltac run_bot :=
  unfold mbind, bot_bind, mret, bot_ret, global, raise, call_answer, message_answer,
    bot_send_message, bot_send_photo, logging_exception, try_except, call in *;
  cbn [effects globals outcome] in *.

(** A step that returns without effect hands its value to the rest. *)
Lemma bind_ok {A B : Type} (m : Bot A) (k : A → Bot B) (tr : Transport) (g : Globals)
    (a : A) :
  m tr g = {| effects := []; globals := g; outcome := Ok a |} →
  (m ≫= k) tr g = k a tr g.
Proof. intros Hm. unfold mbind, bot_bind. rewrite Hm. reflexivity. Qed.

Lemma bind_global {X B : Type} (name : Globals → X) (k : X → Bot B) (tr : Transport)
    (g : Globals) :
  (global name ≫= k) tr g = k (name g) tr g.
Proof. by apply bind_ok. Qed.

Lemma section_by_id_none (ss : list Content.PlannerSection) (sid : string) :
  (∀ s, s ∈ ss → Content.id s ≠ sid) → section_by_id ss sid = None.
Proof.
  unfold section_by_id.
  induction ss as [|s ss IH]; intros Hno; [reflexivity|].
  cbn [List.find].
  destruct (String.eqb_spec (Content.id s) sid) as [Heq|_].
  - exfalso. apply (Hno s); [left | exact Heq].
  - apply IH. intros s' Hin. apply Hno. by right.
Qed.

Lemma callback_sid_sect (c : CallbackQuery) (x : string) (tr : Transport) (g : Globals) :
  data c = Some ("sect|" +:+ x) →
  callback_sid c tr g = {| effects := []; globals := g; outcome := Ok x |}.
Proof. intros Hd. unfold callback_sid. rewrite Hd. reflexivity. Qed.

Lemma callback_sid_more (c : CallbackQuery) (x : string) (tr : Transport) (g : Globals) :
  data c = Some ("more|" +:+ x) →
  callback_sid c tr g = {| effects := []; globals := g; outcome := Ok x |}.
Proof. intros Hd. unfold callback_sid. rewrite Hd. reflexivity. Qed.

Lemma route_sect (c : CallbackQuery) (x : string) :
  data c = Some ("sect|" +:+ x) → route_callback c = inline_section_callback c.
Proof. intros Hd. unfold route_callback, data_startswith. rewrite Hd. reflexivity. Qed.

Lemma route_more (c : CallbackQuery) (x : string) :
  data c = Some ("more|" +:+ x) → route_callback c = inline_more_callback c.
Proof. intros Hd. unfold route_callback, data_startswith. rewrite Hd. reflexivity. Qed.

(** ** End-to-end runs on the one-section catalog *)

Example menu_session :
  fst (polling slash_command (sample_globals "menu" [wings])
         [(UMessage (text_message 7 "/start"), accept_all);
          (UMessage (text_message 7 "Выбрать раздел"), accept_all);
          (UMessage (text_message 7 "Wings"), accept_all);
          (UMessage (text_message 7 "Назад"), accept_all)])
  = [([Delivered (send_message_req 7 "Привет!" (Some (Reply build_menu_keyboard)))], Ok tt);
     ([Delivered (send_message_req 7 "Выберите раздел:"
         (Some (Reply {| keyboard := [[{| kb_text := "Wings" |}]; [{| kb_text := "Назад" |}]];
                         resize_keyboard := true; reply_row_width := 3 |})))], Ok tt);
     ([Delivered (send_message_req 7 "Wing design" None)], Ok tt);
     ([Delivered (send_message_req 7 "Главное меню:" (Some (Reply build_menu_keyboard)))], Ok tt)].
Proof. vm_compute. reflexivity. Qed.

Example inline_session :
  fst (polling slash_command (sample_globals "inline" [wings])
         [(UMessage (text_message 7 "Выбрать раздел"), accept_all);
          (UCallback (callback 7 "sect|a"), accept_all);
          (UCallback (callback 7 "back_to_menu"), accept_all)])
  = let sections_kb :=
      {| inline_keyboard :=
           [[{| ikb_text := "Wings"; callback_data := Some "sect|a"; url := None |}];
            [{| ikb_text := "Купить планер"; callback_data := None;
                url := Some "https://example.org/buy" |}];
            [{| ikb_text := "Связаться с автором"; callback_data := None; url := None |}]];
         inline_row_width := 2 |} in
    [([Delivered (send_message_req 7 "Выберите раздел:" (Some (Inline sections_kb)))], Ok tt);
     ([Delivered (answer_callback_query_req "q1" None false);
       Delivered (send_message_req 7 "Wing design"
         (Some (Inline {| inline_keyboard :=
                            [[{| ikb_text := "Назад"; callback_data := Some "back_to_menu";
                                 url := None |}]];
                          inline_row_width := 3 |})))], Ok tt);
     ([Delivered (answer_callback_query_req "q1" None false);
       Delivered (send_message_req 7 "Выберите раздел:" (Some (Inline sections_kb)))], Ok tt)].
Proof. vm_compute. reflexivity. Qed.

Example unknown_text_echo (mode : string) :
  effects (route_message slash_command (text_message 7 "xyz123") accept_all
             (sample_globals mode [wings]))
  = [Delivered (send_message_req 7 "Не понимаю. Нажми «Выбрать раздел» или /help." None)].
Proof. reflexivity. Qed.

(** The keyboards of three sections: two titles to a row, the third on a
    row of its own, then the fixed rows. *)
Example three_sections_keyboards :
  keyboard (build_sections_reply_keyboard (sample_globals "menu" [wings; habits; back_titled]))
  = [[{| kb_text := "Wings" |}; {| kb_text := "Habits" |}];
     [{| kb_text := "Назад" |}];
     [{| kb_text := "Назад" |}]]
  ∧ map (map callback_data)
      (inline_keyboard
         (build_inline_sections_keyboard (sample_globals "inline" [wings; habits; back_titled])))
    = [[Some "sect|a"; Some "sect|b"]; [Some "sect|c"]; [None]; [None]].
Proof. split; reflexivity. Qed.

(** ** Callbacks that name no section *)

(** C1.  A callback [sect|X] or [more|X] whose [X] is the id of no section
    makes one request, the alert "Раздел не найден" with [show_alert], and no
    message reaches the chat, whatever Telegram does with the alert. *)
Theorem unknown_id_alert (tr : Transport) (g : Globals) (c : CallbackQuery) (x : string) :
  data c = Some ("sect|" +:+ x) ∨ data c = Some ("more|" +:+ x) →
  (∀ s, s ∈ SECTIONS g → Content.id s ≠ x) →
  requests (effects (route_callback c tr g))
    = [answer_callback_query_req (query_id c) (Some "Раздел не найден") true]
  ∧ delivered_messages (effects (route_callback c tr g)) = [].
Proof.
  intros [Hd|Hd] Hno.
  - rewrite (route_sect c x Hd). unfold inline_section_callback.
    rewrite (bind_ok _ _ tr g _ (callback_sid_sect c x tr g Hd)), bind_global.
    rewrite (section_by_id_none _ _ Hno). run_bot.
    destruct (tr _); split; reflexivity.
  - rewrite (route_more c x Hd). unfold inline_more_callback.
    rewrite (bind_ok _ _ tr g _ (callback_sid_more c x tr g Hd)), bind_global.
    rewrite (section_by_id_none _ _ Hno). run_bot.
    destruct (tr _); split; reflexivity.
Qed.

Lemma unknown_id_alert_witness :
  (data (callback 7 "more|zz") = Some ("sect|" +:+ "zz")
   ∨ data (callback 7 "more|zz") = Some ("more|" +:+ "zz"))
  ∧ (∀ s, s ∈ SECTIONS (sample_globals "inline" [wings; habits]) → Content.id s ≠ "zz")
  ∧ requests (effects (route_callback (callback 7 "more|zz") refuse_all
                         (sample_globals "inline" [wings; habits])))
      = [answer_callback_query_req "q1" (Some "Раздел не найден") true]
  ∧ delivered_messages (effects (route_callback (callback 7 "more|zz") refuse_all
                                   (sample_globals "inline" [wings; habits]))) = [].
Proof.
  assert (H1 : data (callback 7 "more|zz") = Some ("sect|" +:+ "zz")
               ∨ data (callback 7 "more|zz") = Some ("more|" +:+ "zz"))
    by (right; reflexivity).
  assert (H2 : ∀ s, s ∈ SECTIONS (sample_globals "inline" [wings; habits])
               → Content.id s ≠ "zz").
  { intros s Hin. cbn in Hin.
    apply list_elem_of_In in Hin. destruct Hin as [<-|[<-|[]]]; discriminate. }
  split; [exact H1|]. split; [exact H2|].
  exact (unknown_id_alert refuse_all (sample_globals "inline" [wings; habits])
           (callback 7 "more|zz") "zz" H1 H2).
Defined.

(** ** Fixed labels come before section titles *)

Lemma any_title_intro (ss : list Content.PlannerSection) (m : Message)
    (s : Content.PlannerSection) :
  s ∈ ss → Aiogram.text m = Some (Content.title s) → any_title ss m = true.
Proof.
  intros Hin Ht. unfold any_title. apply existsb_exists.
  exists s. split; [by apply list_elem_of_In|].
  unfold text_is. rewrite Ht. apply String.eqb_refl.
Qed.

Lemma text_is_label (m : Message) (t label : string) :
  Aiogram.text m = Some t → text_is m label = String.eqb t label.
Proof. intros Ht. unfold text_is. by rewrite Ht. Qed.

Lemma is_text_some (m : Message) (t : string) :
  Aiogram.text m = Some t → negb (is_text m) = false.
Proof. intros Ht. unfold is_text. by rewrite Ht. Qed.

(** C2.  A free-text message whose body is a fixed label and also the title
    of a section passes the filter of [section_selected], yet the router
    runs the handler of the fixed label: its filter is tried first. *)
Theorem fixed_label_first (is_command : list string → Message → bool)
    (tr : Transport) (g : Globals) (m : Message) (label : string) :
  free_text is_command m →
  Aiogram.text m = Some label →
  label ∈ fixed_labels →
  (∃ s, s ∈ SECTIONS g ∧ Content.title s = label) →
  any_title (SECTIONS g) m = true
  ∧ route_message is_command m tr g = fixed_handler label m tr g.
Proof.
  intros [Hstart Hhelp] Ht Hlabel (s & Hin & Htitle). split.
  - apply (any_title_intro _ _ s Hin). by rewrite Htitle.
  - unfold route_message. rewrite (is_text_some m _ Ht), Hstart, Hhelp.
    rewrite !(text_is_label m label _ Ht).
    unfold fixed_labels in Hlabel.
    repeat (apply elem_of_cons in Hlabel as [->|Hlabel]); try reflexivity.
    by apply elem_of_nil in Hlabel.
Qed.

Lemma fixed_label_first_witness :
  free_text slash_command (text_message 7 "Назад")
  ∧ Aiogram.text (text_message 7 "Назад") = Some "Назад"
  ∧ "Назад" ∈ fixed_labels
  ∧ (∃ s, s ∈ SECTIONS (sample_globals "menu" [wings; back_titled])
          ∧ Content.title s = "Назад")
  ∧ any_title (SECTIONS (sample_globals "menu" [wings; back_titled]))
      (text_message 7 "Назад") = true
  ∧ route_message slash_command (text_message 7 "Назад") accept_all
      (sample_globals "menu" [wings; back_titled])
    = fixed_handler "Назад" (text_message 7 "Назад") accept_all
        (sample_globals "menu" [wings; back_titled]).
Proof.
  assert (H1 : free_text slash_command (text_message 7 "Назад"))
    by (split; reflexivity).
  assert (H2 : Aiogram.text (text_message 7 "Назад") = Some "Назад") by reflexivity.
  assert (H3 : "Назад" ∈ fixed_labels).
  { apply list_elem_of_In. cbn. tauto. }
  assert (H4 : ∃ s, s ∈ SECTIONS (sample_globals "menu" [wings; back_titled])
                    ∧ Content.title s = "Назад").
  { exists back_titled. split; [|reflexivity].
    apply list_elem_of_In. cbn. tauto. }
  split; [exact H1|]. split; [exact H2|]. split; [exact H3|]. split; [exact H4|].
  exact (fixed_label_first slash_command accept_all
           (sample_globals "menu" [wings; back_titled])
           (text_message 7 "Назад") "Назад" H1 H2 H3 H4).
Defined.

(** On that catalog the section titled like the back button is not what
    the chat receives: the main menu is. *)
Example back_titled_shadowed :
  effects (route_message slash_command (text_message 7 "Назад") accept_all
             (sample_globals "menu" [wings; back_titled]))
  = [Delivered (send_message_req 7 "Главное меню:" (Some (Reply build_menu_keyboard)))]
  ∧ effects (section_selected (text_message 7 "Назад") accept_all
               (sample_globals "menu" [wings; back_titled]))
    = [Delivered (send_message_req 7 "Notes" None)].
Proof. split; reflexivity. Qed.

(** ** The two ways back *)

Lemma route_back_text (is_command : list string → Message → bool) (m : Message) :
  free_text is_command m → Aiogram.text m = Some "Назад" →
  route_message is_command m = back_handler m.
Proof.
  intros [Hstart Hhelp] Ht. unfold route_message.
  rewrite (is_text_some m _ Ht), Hstart, Hhelp.
  rewrite !(text_is_label m _ _ Ht). reflexivity.
Qed.

Lemma route_back_callback (c : CallbackQuery) :
  data c = Some "back_to_menu" → route_callback c = back_callback c.
Proof.
  intros Hd. unfold route_callback, data_startswith, data_is. rewrite Hd. reflexivity.
Qed.

(** C3, as stated, fails in inline mode: the text "Назад" brings the main
    menu there too, not the inline keyboard of the sections. *)
Lemma back_text_inline_counterexample :
  INTERFACE_MODE (sample_globals "inline" [wings]) = "inline"
  ∧ requests (effects (route_message slash_command (text_message 7 "Назад") accept_all
                         (sample_globals "inline" [wings])))
    = [send_message_req 7 "Главное меню:" (Some (Reply build_menu_keyboard))]
  ∧ requests (effects (route_message slash_command (text_message 7 "Назад") accept_all
                         (sample_globals "inline" [wings])))
    ≠ [send_message_req 7 "Выберите раздел:"
         (Some (Inline (build_inline_sections_keyboard (sample_globals "inline" [wings]))))].
Proof.
  split; [reflexivity|]. split; [reflexivity|].
  vm_compute. intros H. discriminate H.
Qed.

(** C3, amended.  The text "Назад" re-sends the main menu whatever the
    mode.  The choice by mode belongs to the callback [back_to_menu]: once
    acknowledged, it re-sends the main menu in menu mode and the inline
    keyboard of the sections otherwise. *)
Theorem back_text_main_menu (is_command : list string → Message → bool)
    (tr : Transport) (g : Globals) (m : Message) :
  free_text is_command m →
  Aiogram.text m = Some "Назад" →
  requests (effects (route_message is_command m tr g))
    = [send_message_req (chat_id m) "Главное меню:" (Some (Reply build_menu_keyboard))]
  ∧ ∀ c : CallbackQuery,
      data c = Some "back_to_menu" →
      tr (answer_callback_query_req (query_id c) None false) = true →
      requests (effects (route_callback c tr g))
      = [answer_callback_query_req (query_id c) None false;
         if String.eqb (INTERFACE_MODE g) "menu"
         then send_message_req (message_chat_id c) "Главное меню:"
                (Some (Reply build_menu_keyboard))
         else send_message_req (message_chat_id c) "Выберите раздел:"
                (Some (Inline (build_inline_sections_keyboard g)))].
Proof.
  intros Hfree Ht. split.
  - rewrite (route_back_text is_command m Hfree Ht).
    unfold back_handler. run_bot. by destruct (tr _).
  - intros c Hd Hack. rewrite (route_back_callback c Hd).
    unfold back_callback. run_bot. rewrite Hack. clear Hack.
    cbn [effects globals outcome].
    destruct (String.eqb (INTERFACE_MODE g) "menu"); cbn [effects globals outcome];
      destruct (tr _); reflexivity.
Qed.

Lemma back_text_main_menu_witness :
  free_text slash_command (text_message 7 "Назад")
  ∧ Aiogram.text (text_message 7 "Назад") = Some "Назад"
  ∧ requests (effects (route_message slash_command (text_message 7 "Назад") accept_all
                         (sample_globals "inline" [wings; habits])))
    = [send_message_req 7 "Главное меню:" (Some (Reply build_menu_keyboard))]
  ∧ requests (effects (route_callback (callback 7 "back_to_menu") accept_all
                         (sample_globals "inline" [wings; habits])))
    = [answer_callback_query_req "q1" None false;
       send_message_req 7 "Выберите раздел:"
         (Some (Inline (build_inline_sections_keyboard
                          (sample_globals "inline" [wings; habits]))))].
Proof.
  assert (H1 : free_text slash_command (text_message 7 "Назад"))
    by (split; reflexivity).
  assert (H2 : Aiogram.text (text_message 7 "Назад") = Some "Назад") by reflexivity.
  destruct (back_text_main_menu slash_command accept_all
              (sample_globals "inline" [wings; habits])
              (text_message 7 "Назад") H1 H2) as [Htext Hcall].
  split; [exact H1|]. split; [exact H2|]. split; [exact Htext|].
  exact (Hcall (callback 7 "back_to_menu") eq_refl eq_refl).
Defined.

(** ** Looking a section up *)

Lemma find_unique {A : Type} (key : A → string) (p : A → bool) (l : list A) (x : A) :
  (∀ y, p y = true ↔ key y = key x) →
  NoDup (key <$> l) → x ∈ l → List.find p l = Some x.
Proof.
  intros Hp. induction l as [|a l IH]; intros Hnd Hin.
  - by apply elem_of_nil in Hin.
  - rewrite fmap_cons in Hnd. apply NoDup_cons in Hnd as [Hfresh Hnd].
    cbn [List.find]. destruct (p a) eqn:Hpa.
    + apply Hp in Hpa. apply elem_of_cons in Hin as [->|Hin]; [reflexivity|].
      exfalso. apply Hfresh. rewrite Hpa. by apply list_elem_of_fmap_2.
    + apply elem_of_cons in Hin as [->|Hin].
      * assert (p a = true) as Habs by (by apply Hp). congruence.
      * by apply IH.
Qed.

Lemma section_by_id_unique (ss : list Content.PlannerSection) (s : Content.PlannerSection) :
  NoDup (Content.id <$> ss) → s ∈ ss → section_by_id ss (Content.id s) = Some s.
Proof.
  intros Hnd Hin. unfold section_by_id.
  apply (find_unique Content.id); [|done..].
  intros y. apply String.eqb_eq.
Qed.

Lemma section_by_title_unique (ss : list Content.PlannerSection) (m : Message)
    (s : Content.PlannerSection) :
  Aiogram.text m = Some (Content.title s) →
  NoDup (Content.title <$> ss) → s ∈ ss → section_by_title ss m = Some s.
Proof.
  intros Ht Hnd Hin. unfold section_by_title.
  apply (find_unique Content.title); [|done..].
  intros y. rewrite (text_is_label m _ _ Ht), String.eqb_eq. split; congruence.
Qed.

(** ** What [send_section] does *)

Lemma send_section_run (chat : Z) (s : Content.PlannerSection) (rm : option Markup)
    (tr : Transport) (g : Globals) :
  send_section chat s rm tr g =
    let caption := default "" (Content.text s) in
    let photo := send_photo_req chat (default "" (Content.image s)) caption rm in
    let txt := send_message_req chat caption rm in
    let text_only :=
      if tr txt
      then {| effects := [Delivered txt]; globals := g; outcome := Ok tt |}
      else {| effects := [Refused txt]; globals := g; outcome := Raise TelegramAPIError |} in
    if Str.truthy (Content.image s)
    then
      if tr photo
      then {| effects := [Delivered photo]; globals := g; outcome := Ok tt |}
      else {| effects :=
                Refused photo :: Logged "Failed to send image; will send text only."
                :: effects text_only;
              globals := g;
              outcome := outcome text_only |}
    else text_only.
Proof.
  unfold send_section. run_bot.
  destruct (Str.truthy (Content.image s)); cbn [effects globals outcome].
  - destruct (tr (send_photo_req _ _ _ _)); cbn [effects globals outcome]; [reflexivity|].
    destruct (tr (send_message_req _ _ _)); reflexivity.
  - destruct (tr (send_message_req _ _ _)); reflexivity.
Qed.

Lemma send_section_globals (chat : Z) (s : Content.PlannerSection) (rm : option Markup)
    (tr : Transport) (g : Globals) :
  globals (send_section chat s rm tr g) = g.
Proof.
  rewrite send_section_run. cbv zeta.
  repeat match goal with |- context [if ?b then _ else _] => destruct b end; reflexivity.
Qed.

Lemma send_section_markup (chat : Z) (s : Content.PlannerSection) (rm : option Markup)
    (tr : Transport) (g : Globals) :
  Forall (λ q, request_markup q = rm) (requests (effects (send_section chat s rm tr g))).
Proof.
  rewrite send_section_run. cbv zeta.
  repeat match goal with |- context [if ?b then _ else _] => destruct b end;
    cbn [effects requests]; repeat constructor.
Qed.

Lemma send_section_mode (chat : Z) (s : Content.PlannerSection) (rm : option Markup)
    (tr : Transport) (g g' : Globals) :
  effects (send_section chat s rm tr g') = effects (send_section chat s rm tr g)
  ∧ outcome (send_section chat s rm tr g') = outcome (send_section chat s rm tr g).
Proof.
  rewrite !send_section_run. cbv zeta.
  repeat match goal with |- context [if ?b then _ else _] => destruct b end;
    split; reflexivity.
Qed.

(** C6, as stated, fails when Telegram refuses the text too: the photo is
    refused, the text sent in its place is refused, and the chat receives
    nothing -- with or without a picture in the section. *)
Lemma send_section_nothing_delivered_counterexample :
  requests (effects (send_section 7 habits None refuse_all (sample_globals "menu" [habits])))
    = [send_photo_req 7 "https://example.org/habits.png" "Habit tracker" None;
       send_message_req 7 "Habit tracker" None]
  ∧ delivered_messages
      (effects (send_section 7 habits None refuse_all (sample_globals "menu" [habits]))) = []
  ∧ delivered_messages
      (effects (send_section 7 wings None refuse_all (sample_globals "menu" [wings]))) = []
  ∧ length (delivered_messages
      (effects (send_section 7 habits None refuse_all (sample_globals "menu" [habits])))) ≠ 1%nat.
Proof. repeat split; try reflexivity. cbn. discriminate. Qed.

(** C6, amended.  One call of [send_section] delivers at most one message,
    never a photo and a text both.  With a picture the photo is tried first,
    the text as its caption; if Telegram takes it nothing else is sent; if
    not, the text alone is sent once, with the same caption and keyboard.
    Exactly one message is delivered when the photo or that text goes
    through, which is when the call returns instead of raising. *)
Theorem send_section_at_most_one (chat : Z) (s : Content.PlannerSection)
    (rm : option Markup) (tr : Transport) (g : Globals) :
  let r := send_section chat s rm tr g in
  let caption := default "" (Content.text s) in
  let photo := send_photo_req chat (default "" (Content.image s)) caption rm in
  let txt := send_message_req chat caption rm in
  requests (effects r)
    = (if Str.truthy (Content.image s)
       then if tr photo then [photo] else [photo; txt]
       else [txt])
  ∧ delivered_messages (effects r)
    = (if Str.truthy (Content.image s) && tr photo then [photo]
       else if tr txt then [txt] else [])
  ∧ (length (delivered_messages (effects r)) ≤ 1)%nat
  ∧ (length (delivered_messages (effects r)) = 1%nat ↔ outcome r = Ok tt).
Proof.
  cbv zeta. rewrite send_section_run. cbv zeta.
  destruct (Str.truthy (Content.image s)); cbn [andb];
    repeat match goal with |- context [if ?b then _ else _] => destruct b end;
    cbn; repeat split; intros; try lia; try reflexivity; discriminate.
Qed.

(** When only the photo is refused, exactly one text message results. *)
Example send_section_fallback :
  effects (send_section 7 habits None refuse_photos (sample_globals "menu" [habits]))
  = [Refused (send_photo_req 7 "https://example.org/habits.png" "Habit tracker" None);
     Logged "Failed to send image; will send text only.";
     Delivered (send_message_req 7 "Habit tracker" None)].
Proof. reflexivity. Qed.

(** ** The detail keyboard *)

Lemma detail_keyboard_buttons (s : Content.PlannerSection) :
  inline_buttons (detail_keyboard s)
  = (if default false (Content.has_more s)
     then [{| ikb_text := "Подробнее";
              callback_data := Some ("more|" +:+ Content.id s);
              url := None |}]
     else [])
    ++ [{| ikb_text := "Назад"; callback_data := Some "back_to_menu"; url := None |}].
Proof.
  unfold detail_keyboard, inline_buttons.
  destruct (default false (Content.has_more s)); reflexivity.
Qed.

Lemma route_sect_known (tr : Transport) (g : Globals) (c : CallbackQuery)
    (s : Content.PlannerSection) :
  s ∈ SECTIONS g → NoDup (Content.id <$> SECTIONS g) →
  data c = Some ("sect|" +:+ Content.id s) →
  route_callback c tr g
  = (call_answer c None false;;
     send_section (message_chat_id c) s (Some (Inline (detail_keyboard s)))) tr g.
Proof.
  intros Hin Hnd Hd. rewrite (route_sect c _ Hd). unfold inline_section_callback.
  rewrite (bind_ok _ _ tr g _ (callback_sid_sect c _ tr g Hd)), bind_global.
  by rewrite (section_by_id_unique _ _ Hnd Hin).
Qed.

(** C4.  When the callback [sect|<id>] selects the section [s], the content
    is sent with the detail keyboard of [s].  That keyboard has a button
    with payload [more|<id of s>] exactly when [has_more] is true, and its
    last button, after that one, is "Назад" with payload [back_to_menu]. *)
Theorem detail_keyboard_more_iff (tr : Transport) (g : Globals) (c : CallbackQuery)
    (s : Content.PlannerSection) :
  s ∈ SECTIONS g →
  NoDup (Content.id <$> SECTIONS g) →
  data c = Some ("sect|" +:+ Content.id s) →
  let ikb := detail_keyboard s in
  let more :=
    {| ikb_text := "Подробнее"; callback_data := Some ("more|" +:+ Content.id s);
       url := None |} in
  let back :=
    {| ikb_text := "Назад"; callback_data := Some "back_to_menu"; url := None |} in
  route_callback c tr g
    = (call_answer c None false;;
       send_section (message_chat_id c) s (Some (Inline ikb))) tr g
  ∧ ((∃ b, b ∈ inline_buttons ikb ∧ callback_data b = Some ("more|" +:+ Content.id s))
     ↔ Content.has_more s = Some true)
  ∧ inline_buttons ikb = (if default false (Content.has_more s) then [more] else []) ++ [back]
  ∧ last (inline_buttons ikb) = Some back
  ∧ Forall (λ q, is_message q = true → request_markup q = Some (Inline ikb))
      (requests (effects (route_callback c tr g))).
Proof.
  intros Hin Hnd Hd. cbv zeta.
  split; [by apply route_sect_known|].
  rewrite detail_keyboard_buttons.
  split; [|split; [reflexivity|split; [apply last_snoc|]]].
  2:{ rewrite (route_sect_known tr g c s Hin Hnd Hd). run_bot.
      destruct (tr (answer_callback_query_req _ _ _)); cbn [effects globals outcome].
      - cbn [app requests]. apply Forall_cons. split; [discriminate|].
        eapply Forall_impl; [apply send_section_markup|]. by intros q Hq _.
      - by apply Forall_cons. }
  split.
  - intros (b & Hb & Hdata).
    destruct (Content.has_more s) as [[|]|]; [reflexivity| |];
      cbn in Hb; apply list_elem_of_singleton in Hb; subst b; discriminate Hdata.
  - intros ->. eexists. split; [apply elem_of_app; left; by apply list_elem_of_singleton|].
    reflexivity.
Qed.

Lemma detail_keyboard_more_iff_witness :
  habits ∈ SECTIONS (sample_globals "inline" [wings; habits])
  ∧ NoDup (Content.id <$> SECTIONS (sample_globals "inline" [wings; habits]))
  ∧ data (callback 7 "sect|b") = Some ("sect|" +:+ Content.id habits)
  ∧ ((∃ b, b ∈ inline_buttons (detail_keyboard habits)
           ∧ callback_data b = Some ("more|" +:+ Content.id habits))
     ↔ Content.has_more habits = Some true)
  ∧ last (inline_buttons (detail_keyboard habits))
    = Some {| ikb_text := "Назад"; callback_data := Some "back_to_menu"; url := None |}.
Proof.
  assert (H1 : habits ∈ SECTIONS (sample_globals "inline" [wings; habits])).
  { apply list_elem_of_In. cbn. tauto. }
  assert (H2 : NoDup (Content.id <$> SECTIONS (sample_globals "inline" [wings; habits]))).
  { cbn. apply NoDup_cons. split; [|apply NoDup_singleton].
    intros Hin. apply list_elem_of_singleton in Hin. discriminate Hin. }
  assert (H3 : data (callback 7 "sect|b") = Some ("sect|" +:+ Content.id habits))
    by reflexivity.
  destruct (detail_keyboard_more_iff accept_all (sample_globals "inline" [wings; habits])
              (callback 7 "sect|b") habits H1 H2 H3) as (_ & Hiff & _ & Hlast & _).
  split; [exact H1|]. split; [exact H2|]. split; [exact H3|].
  split; [exact Hiff | exact Hlast].
Defined.

(** ** The detail text *)

Lemma route_more_known (tr : Transport) (g : Globals) (c : CallbackQuery)
    (s : Content.PlannerSection) :
  s ∈ SECTIONS g → NoDup (Content.id <$> SECTIONS g) →
  data c = Some ("more|" +:+ Content.id s) →
  route_callback c tr g
  = (call_answer c None false;;
     bot_send_message (message_chat_id c)
       (if Str.truthy (Content.more_text s)
        then default "" (Content.more_text s)
        else "Дополнительная информация отсутствует.") None) tr g.
Proof.
  intros Hin Hnd Hd. rewrite (route_more c _ Hd). unfold inline_more_callback.
  rewrite (bind_ok _ _ tr g _ (callback_sid_more c _ tr g Hd)), bind_global.
  by rewrite (section_by_id_unique _ _ Hnd Hin).
Qed.

(** C10.  For a section [s] of the catalog and the callback [more|<id of
    s>], the handler acknowledges and sends one text.  That text is the
    static "Дополнительная информация отсутствует." when [more_text] is
    absent or the empty string, and [more_text] itself when it is a
    non-empty string -- the only case in which [more_text] is what is
    sent. *)
Theorem more_text_or_fallback (tr : Transport) (g : Globals) (c : CallbackQuery)
    (s : Content.PlannerSection) :
  s ∈ SECTIONS g →
  NoDup (Content.id <$> SECTIONS g) →
  data c = Some ("more|" +:+ Content.id s) →
  ∃ shown : string,
    route_callback c tr g
      = (call_answer c None false;; bot_send_message (message_chat_id c) shown None) tr g
    ∧ (Content.more_text s = None ∨ Content.more_text s = Some "" →
       shown = "Дополнительная информация отсутствует.")
    ∧ (∀ t, Content.more_text s = Some t → t ≠ "" → shown = t)
    ∧ (∀ t, Content.more_text s = Some t → shown = t → t ≠ "")
    ∧ (tr (answer_callback_query_req (query_id c) None false) = true →
       requests (effects (route_callback c tr g))
       = [answer_callback_query_req (query_id c) None false;
          send_message_req (message_chat_id c) shown None]).
Proof.
  intros Hin Hnd Hd. eexists. split; [by apply route_more_known|].
  split; [|split; [|split]].
  - by intros [->| ->].
  - intros t -> Hne. cbn. by destruct (String.eqb_spec t "").
  - intros t -> Hshown ->. cbn in Hshown. discriminate Hshown.
  - intros Hack. rewrite (route_more_known tr g c s Hin Hnd Hd). run_bot.
    rewrite Hack. clear Hack. cbn [effects globals outcome].
    destruct (tr _); reflexivity.
Qed.

Lemma more_text_or_fallback_witness :
  wings ∈ SECTIONS (sample_globals "inline" [wings; habits])
  ∧ NoDup (Content.id <$> SECTIONS (sample_globals "inline" [wings; habits]))
  ∧ data (callback 7 "more|a") = Some ("more|" +:+ Content.id wings)
  ∧ ∃ shown : string,
      shown = "Дополнительная информация отсутствует."
      ∧ requests (effects (route_callback (callback 7 "more|a") accept_all
                             (sample_globals "inline" [wings; habits])))
        = [answer_callback_query_req "q1" None false; send_message_req 7 shown None].
Proof.
  assert (H1 : wings ∈ SECTIONS (sample_globals "inline" [wings; habits])).
  { apply list_elem_of_In. cbn. tauto. }
  assert (H2 : NoDup (Content.id <$> SECTIONS (sample_globals "inline" [wings; habits]))).
  { cbn. apply NoDup_cons. split; [|apply NoDup_singleton].
    intros Hin. apply list_elem_of_singleton in Hin. discriminate Hin. }
  assert (H3 : data (callback 7 "more|a") = Some ("more|" +:+ Content.id wings))
    by reflexivity.
  destruct (more_text_or_fallback accept_all (sample_globals "inline" [wings; habits])
              (callback 7 "more|a") wings H1 H2 H3)
    as (shown & _ & Hfallback & _ & _ & Hreq).
  split; [exact H1|]. split; [exact H2|]. split; [exact H3|].
  exists shown. split; [apply Hfallback; left; reflexivity | apply Hreq; reflexivity].
Defined.

(** An empty [more_text] and a non-empty one. *)
Example more_text_cases :
  requests (effects (route_callback (callback 7 "more|c") accept_all
                       (sample_globals "inline" [back_titled; habits])))
  = [answer_callback_query_req "q1" None false;
     send_message_req 7 "Дополнительная информация отсутствует." None]
  ∧ requests (effects (route_callback (callback 7 "more|b") accept_all
                         (sample_globals "inline" [back_titled; habits])))
    = [answer_callback_query_req "q1" None false;
       send_message_req 7 "Fill one row per habit." None].
Proof. split; reflexivity. Qed.

(** ** Section titles as text *)

Lemma not_fixed_label (t : string) :
  t ∉ fixed_labels →
  String.eqb t "Выбрать раздел" = false
  ∧ String.eqb t "Купить планер" = false
  ∧ String.eqb t "Связаться с автором" = false
  ∧ String.eqb t "Помощь" = false
  ∧ String.eqb t "Назад" = false.
Proof.
  intros Hnot. repeat split; apply String.eqb_neq; intros ->; apply Hnot;
    apply list_elem_of_In; cbn; tauto.
Qed.

Lemma route_title (is_command : list string → Message → bool) (tr : Transport)
    (g : Globals) (m : Message) (s : Content.PlannerSection) :
  free_text is_command m →
  Aiogram.text m = Some (Content.title s) →
  s ∈ SECTIONS g →
  NoDup (Content.title <$> SECTIONS g) →
  Content.title s ∉ fixed_labels →
  route_message is_command m tr g = send_section (chat_id m) s None tr g.
Proof.
  intros [Hstart Hhelp] Ht Hin Hnd Hnot.
  destruct (not_fixed_label _ Hnot) as (H1 & H2 & H3 & H4 & H5).
  unfold route_message. rewrite (is_text_some m _ Ht), Hstart, Hhelp.
  rewrite !(text_is_label m _ _ Ht), H1, H2, H3, H4, H5.
  rewrite bind_global, (any_title_intro _ _ s Hin Ht).
  unfold section_selected. rewrite bind_global.
  by rewrite (section_by_title_unique _ _ _ Ht Hnd Hin).
Qed.

(** C9.  The handler of section titles never looks at the mode.  Where the
    titles are distinct and none is a fixed label, a free-text message equal
    to the title of a section [s] is answered by [send_section] on [s] with
    no [reply_markup], under every value of [INTERFACE_MODE] and with the
    same effects: no request carries a keyboard, so neither a "more" nor a
    [back_to_menu] button goes out. *)
Theorem title_renders_in_every_mode (is_command : list string → Message → bool)
    (tr : Transport) (g : Globals) (m : Message) (s : Content.PlannerSection) :
  free_text is_command m →
  Aiogram.text m = Some (Content.title s) →
  s ∈ SECTIONS g →
  NoDup (Content.title <$> SECTIONS g) →
  Content.title s ∉ fixed_labels →
  ∀ mode : string,
    route_message is_command m tr (with_mode mode g)
      = send_section (chat_id m) s None tr (with_mode mode g)
    ∧ effects (route_message is_command m tr (with_mode mode g))
      = effects (send_section (chat_id m) s None tr g)
    ∧ Forall (λ q, request_markup q = None)
        (requests (effects (route_message is_command m tr (with_mode mode g)))).
Proof.
  intros Hfree Ht Hin Hnd Hnot mode.
  assert (Hroute : route_message is_command m tr (with_mode mode g)
                   = send_section (chat_id m) s None tr (with_mode mode g))
    by (by apply route_title).
  rewrite Hroute. split; [reflexivity|]. split.
  - apply send_section_mode.
  - apply send_section_markup.
Qed.

Lemma title_renders_in_every_mode_witness :
  free_text slash_command (text_message 7 "Habits")
  ∧ Aiogram.text (text_message 7 "Habits") = Some (Content.title habits)
  ∧ habits ∈ SECTIONS (sample_globals "menu" [wings; habits])
  ∧ NoDup (Content.title <$> SECTIONS (sample_globals "menu" [wings; habits]))
  ∧ (Content.title habits ∉ fixed_labels)
  ∧ effects (route_message slash_command (text_message 7 "Habits") refuse_photos
               (with_mode "inline" (sample_globals "menu" [wings; habits])))
    = effects (send_section 7 habits None refuse_photos
                 (sample_globals "menu" [wings; habits])).
Proof.
  assert (H1 : free_text slash_command (text_message 7 "Habits"))
    by (split; reflexivity).
  assert (H2 : Aiogram.text (text_message 7 "Habits") = Some (Content.title habits))
    by reflexivity.
  assert (H3 : habits ∈ SECTIONS (sample_globals "menu" [wings; habits])).
  { apply list_elem_of_In. cbn. tauto. }
  assert (H4 : NoDup (Content.title <$> SECTIONS (sample_globals "menu" [wings; habits]))).
  { cbn. apply NoDup_cons. split; [|apply NoDup_singleton].
    intros Hin. apply list_elem_of_singleton in Hin. discriminate Hin. }
  assert (H5 : Content.title habits ∉ fixed_labels).
  { intros Hin. apply list_elem_of_In in Hin. cbn in Hin.
    destruct Hin as [H|[H|[H|[H|[H|[]]]]]]; discriminate H. }
  split; [exact H1|]. split; [exact H2|]. split; [exact H3|]. split; [exact H4|].
  split; [exact H5|].
  exact (proj1 (proj2 (title_renders_in_every_mode slash_command refuse_photos
                         (sample_globals "menu" [wings; habits])
                         (text_message 7 "Habits") habits H1 H2 H3 H4 H5 "inline"))).
Defined.

(** In inline mode the title typed as text is served like in menu mode. *)
Example title_in_inline_mode :
  effects (route_message slash_command (text_message 7 "Wings") accept_all
             (sample_globals "inline" [wings; habits]))
  = [Delivered (send_message_req 7 "Wing design" None)]
  ∧ effects (route_message slash_command (text_message 7 "Wings") accept_all
               (sample_globals "menu" [wings; habits]))
    = [Delivered (send_message_req 7 "Wing design" None)].
Proof. split; reflexivity. Qed.

(** ** No state between updates *)

Lemma call_globals (r : Request) (tr : Transport) (g : Globals) :
  globals (call r tr g) = g.
Proof. unfold call. by destruct (tr r). Qed.

Lemma bind_globals {A B : Type} (m : Bot A) (k : A → Bot B) (tr : Transport) (g : Globals) :
  globals (m tr g) = g → (∀ a, globals (k a tr g) = g) → globals ((m ≫= k) tr g) = g.
Proof.
  intros Hm Hk. unfold mbind, bot_bind. cbv zeta.
  destruct (outcome (m tr g)) as [a|e]; cbn [globals]; [|exact Hm].
  rewrite Hm. apply Hk.
Qed.

Lemma callback_sid_globals (c : CallbackQuery) (tr : Transport) (g : Globals) :
  globals (callback_sid c tr g) = g.
Proof.
  unfold callback_sid. destruct (data c) as [d|]; [|reflexivity].
  destruct (Str.unpack2 _) as [[? ?]|?]; reflexivity.
Qed.

(** Tactic for the handlers: a bind keeps the globals when its two halves
    do, and the primitive steps do. *)
Ltac keeps_globals :=
  repeat first
    [ reflexivity
    | apply call_globals
    | apply send_section_globals
    | apply callback_sid_globals
    | apply bind_globals; [|intros ?]
    | match goal with
      | |- context [if ?b then _ else _] => destruct b
      | |- context [match ?o with Some _ => _ | None => _ end] => destruct o
      end ].

Lemma route_message_globals (is_command : list string → Message → bool) (m : Message)
    (tr : Transport) (g : Globals) :
  globals (route_message is_command m tr g) = g.
Proof.
  unfold route_message, cmd_start, cmd_help, show_sections_menu, buy_handler,
    contact_handler, help_text, cmd_help, back_handler, section_selected, echo,
    message_answer, bot_send_message.
  keeps_globals.
Qed.

Lemma route_callback_globals (c : CallbackQuery) (tr : Transport) (g : Globals) :
  globals (route_callback c tr g) = g.
Proof.
  unfold route_callback, inline_section_callback, inline_more_callback, back_callback,
    call_answer, bot_send_message.
  keeps_globals.
Qed.

Lemma process_update_globals (is_command : list string → Message → bool) (u : Update)
    (tr : Transport) (g : Globals) :
  globals (process_update is_command u tr g) = g.
Proof.
  destruct u as [m|c]; [apply route_message_globals | apply route_callback_globals].
Qed.

Lemma polling_globals (is_command : list string → Message → bool) (g : Globals)
    (updates : list (Update * Transport)) :
  snd (polling is_command g updates) = g.
Proof.
  induction updates as [|[u tr] rest IH]; [reflexivity|].
  cbn [polling]. rewrite process_update_globals.
  destruct (polling is_command g rest) as [outs g'] eqn:Hrest.
  cbn [snd] in *. exact IH.
Qed.

(** C7.  No handler writes a module global, and the globals are all a
    handler reads besides the update: whatever updates were served before,
    the globals are the ones the import left, so an update is served the
    same way after any history as at the start; and fed twice in a row
    against the same Telegram, it leaves the same effects and the same
    outcome both times. *)
Theorem routing_stateless (is_command : list string → Message → bool) (g : Globals)
    (history : list (Update * Transport)) (u : Update) (tr : Transport) :
  snd (polling is_command g history) = g
  ∧ process_update is_command u tr (snd (polling is_command g history))
    = process_update is_command u tr g
  ∧ fst (polling is_command g [(u, tr); (u, tr)])
    = [(effects (process_update is_command u tr g),
        outcome (process_update is_command u tr g));
       (effects (process_update is_command u tr g),
        outcome (process_update is_command u tr g))].
Proof.
  split; [apply polling_globals|]. split.
  - by rewrite polling_globals.
  - cbn [polling fst]. by rewrite !process_update_globals.
Qed.

(** ** The import *)

Lemma load_ok_inv (getenv_mode : option string) (file : Loader.content_file) (tok : string)
    (g : Loader.Globals) :
  Loader.load getenv_mode file tok = Ok g →
  ∃ sections,
    file = Loader.Document (JObj (Loader.CONTENT g))
    ∧ Loader.CONTENT g !! "sections" = Some sections
    ∧ Loader.SECTIONS g = sections
    ∧ Loader.interface_mode getenv_mode (JObj (Loader.CONTENT g))
      = Ok (Loader.INTERFACE_MODE g).
Proof.
  unfold Loader.load. destruct file as [| |v]; cbn [Loader.json_load]; try discriminate.
  destruct (Loader.interface_mode getenv_mode v) as [mode|e] eqn:Hmode; [|discriminate].
  unfold Loader.subscript_sections.
  destruct v as [| | | | |d]; try discriminate.
  destruct (d !! "sections") as [sections|] eqn:Hs; [|discriminate].
  intros [= <-]. exists sections. cbn. by rewrite Hs.
Qed.

(** C8.  A process starts when the token is accepted and [content.json] is
    an object with ["sections"]; and after every start [INTERFACE_MODE] is
    the value of the environment variable when it is set, whatever
    [content.json] declares; when it is unset, it is the document's
    ["interface_mode"], and "menu" when the document has no such key. *)
Theorem effective_interface_mode (check_token : string → bool) (env : Loader.Environ)
    (file : Loader.content_file) :
  (∀ g, Loader.startup check_token env file = Ok g →
        file = Loader.Document (JObj (Loader.CONTENT g))
        ∧ (∀ v, Loader.env_INTERFACE_MODE env = Some v → Loader.INTERFACE_MODE g = JStr v)
        ∧ (Loader.env_INTERFACE_MODE env = None →
           ∀ declared, Loader.CONTENT g !! "interface_mode" = Some declared →
                       Loader.INTERFACE_MODE g = declared)
        ∧ (Loader.env_INTERFACE_MODE env = None →
           Loader.CONTENT g !! "interface_mode" = None →
           Loader.INTERFACE_MODE g = JStr "menu"))
  ∧ (∀ tok d sections,
       Loader.env_BOT_TOKEN env = Some tok → tok ≠ "" → check_token tok = true →
       file = Loader.Document (JObj d) → d !! "sections" = Some sections →
       ∃ g, Loader.startup check_token env file = Ok g
            ∧ Loader.CONTENT g = d
            ∧ Loader.INTERFACE_MODE g
              = match Loader.env_INTERFACE_MODE env with
                | Some v => JStr v
                | None => default (JStr "menu") (d !! "interface_mode")
                end).
Proof.
  split.
  - intros g. unfold Loader.startup.
    destruct (Loader.read_token env) as [tok|e]; [|discriminate].
    destruct (Loader.make_bot check_token tok) as [?|e]; [|discriminate].
    intros Hload. apply load_ok_inv in Hload as (sections & Hfile & _ & _ & Hmode).
    split; [exact Hfile|]. unfold Loader.interface_mode, get in Hmode.
    split; [|split].
    + intros v Hv. rewrite Hv in Hmode. congruence.
    + intros Hnone declared Hd. rewrite Hnone, Hd in Hmode. cbn in Hmode. congruence.
    + intros Hnone Hd. rewrite Hnone, Hd in Hmode. cbn in Hmode. congruence.
  - intros tok d sections Htok Hne Hcheck -> Hs.
    unfold Loader.startup, Loader.read_token, Loader.make_bot. rewrite Htok.
    destruct (String.eqb_spec tok "") as [?|_]; [contradiction|]. rewrite Hcheck.
    unfold Loader.load, Loader.interface_mode, Loader.subscript_sections, get.
    cbn [Loader.json_load]. rewrite Hs.
    destruct (Loader.env_INTERFACE_MODE env); eexists; (split; [reflexivity|]);
      split; reflexivity.
Qed.

Lemma effective_interface_mode_witness :
  (∃ g, Loader.startup digits_colon_secret (sample_environ (Some "menu"))
          (Loader.Document (JObj sound_map)) = Ok g
        ∧ sound_map !! "interface_mode" = Some (JStr "inline")
        ∧ Loader.INTERFACE_MODE g = JStr "menu")
  ∧ (∃ g, Loader.startup digits_colon_secret (sample_environ None)
            (Loader.Document (JObj sound_map)) = Ok g
          ∧ Loader.INTERFACE_MODE g = JStr "inline")
  ∧ (∃ g, Loader.startup digits_colon_secret (sample_environ None)
            (Loader.Document (JObj duplicate_map)) = Ok g
          ∧ duplicate_map !! "interface_mode" = None
          ∧ Loader.INTERFACE_MODE g = JStr "menu").
Proof.
  split; [|split].
  - destruct (proj2 (effective_interface_mode digits_colon_secret
                       (sample_environ (Some "menu")) (Loader.Document (JObj sound_map)))
                "123:abc" sound_map (JArr [entry "a" "Wings" "Wing design"])
                eq_refl ltac:(discriminate) eq_refl eq_refl eq_refl)
      as (g & Hstart & _ & Hmode).
    exists g. split; [exact Hstart|]. split; [reflexivity | exact Hmode].
  - destruct (proj2 (effective_interface_mode digits_colon_secret
                       (sample_environ None) (Loader.Document (JObj sound_map)))
                "123:abc" sound_map (JArr [entry "a" "Wings" "Wing design"])
                eq_refl ltac:(discriminate) eq_refl eq_refl eq_refl)
      as (g & Hstart & _ & Hmode).
    exists g. split; [exact Hstart | exact Hmode].
  - destruct (proj2 (effective_interface_mode digits_colon_secret
                       (sample_environ None) (Loader.Document (JObj duplicate_map)))
                "123:abc" duplicate_map duplicate_sections
                eq_refl ltac:(discriminate) eq_refl eq_refl eq_refl)
      as (g & Hstart & _ & Hmode).
    exists g. split; [exact Hstart|]. split; [reflexivity | exact Hmode].
Defined.

(** Without the override the declared mode is taken, and "menu" when none
    is declared. *)
Example declared_and_default_mode :
  (∃ g, Loader.startup digits_colon_secret (sample_environ None)
          (Loader.Document sound_document) = Ok g
        ∧ Loader.INTERFACE_MODE g = JStr "inline")
  ∧ (∃ g, Loader.startup digits_colon_secret (sample_environ None)
            (Loader.Document duplicate_document) = Ok g
          ∧ Loader.INTERFACE_MODE g = JStr "menu").
Proof. split; eexists; (split; [reflexivity|]); reflexivity. Qed.

(** C5, as stated, fails: a document whose two entries share their [id] and
    their [title] loads, and so does one whose entry has none of [id],
    [title], [text]. *)
Lemma duplicate_ids_load_counterexample :
  (∃ raw ss,
     Loader.startup digits_colon_secret (sample_environ None)
       (Loader.Document duplicate_document) = Ok raw
     ∧ Loader.SECTIONS raw = duplicate_sections
     ∧ Content.sections_of_json duplicate_sections = Some ss
     ∧ ¬ NoDup (Content.id <$> ss)
     ∧ ¬ NoDup (Content.title <$> ss))
  ∧ (∃ raw,
       Loader.startup digits_colon_secret (sample_environ None)
         (Loader.Document keyless_document) = Ok raw
       ∧ Loader.SECTIONS raw = JArr [JObj ∅]
       ∧ Content.section_of_json (JObj ∅) = None).
Proof.
  split.
  - do 2 eexists. split; [reflexivity|]. split; [reflexivity|]. split; [reflexivity|].
    split; intros Hnd; apply NoDup_cons in Hnd as [Hfresh _]; apply Hfresh;
      by apply list_elem_of_singleton.
  - eexists. split; [reflexivity|]. split; reflexivity.
Qed.

(** C5, amended.  The load fails exactly when [content.json] cannot be
    opened, is not JSON, or is not an object with the key ["sections"].
    Nothing else is inspected: whatever value ["sections"] has -- entries
    without [id], [title] or [text], repeated ids, repeated titles -- the
    load succeeds. *)
Theorem load_fails_iff (getenv_mode : option string) (file : Loader.content_file)
    (tok : string) :
  is_ok (Loader.load getenv_mode file tok) = false
  ↔ file = Loader.Unreadable
    ∨ file = Loader.Malformed
    ∨ ∃ v, file = Loader.Document v ∧ ∀ d, v = JObj d → d !! "sections" = None.
Proof.
  split.
  - destruct file as [| |v]; [by left | by (right; left) |].
    intros Hfail. right; right. exists v. split; [reflexivity|].
    intros d ->. revert Hfail. unfold Loader.load. cbn [Loader.json_load].
    destruct (Loader.interface_mode getenv_mode (JObj d)) as [mode|e] eqn:Hmode.
    + unfold Loader.subscript_sections.
      destruct (d !! "sections"); [discriminate | reflexivity].
    + destruct getenv_mode; discriminate Hmode.
  - intros [-> | [-> | (v & -> & Hv)]]; [reflexivity..|].
    unfold Loader.load. cbn [Loader.json_load].
    destruct (Loader.interface_mode getenv_mode v) as [mode|e]; [|reflexivity].
    unfold Loader.subscript_sections.
    destruct v as [| | | | |d]; try reflexivity.
    by rewrite (Hv d eq_refl).
Qed.

(** The loaded sound document, in the content format, serves updates. *)
Example loaded_document_serves :
  ∃ raw g,
    Loader.startup digits_colon_secret (sample_environ None)
      (Loader.Document sound_document) = Ok raw
    ∧ typed raw = Some g
    ∧ effects (route_callback (callback 7 "sect|a") accept_all g)
      = [Delivered (answer_callback_query_req "q1" None false);
         Delivered (send_message_req 7 "Wing design"
           (Some (Inline {| inline_keyboard :=
                              [[{| ikb_text := "Назад";
                                   callback_data := Some "back_to_menu";
                                   url := None |}]];
                            inline_row_width := 3 |})))].
Proof. do 2 eexists. split; [reflexivity|]. split; reflexivity. Qed.

(** * Further properties of the module *)

(** ** Cutting a callback payload *)

Lemma partition_app (sep : Ascii.ascii) (a b : string) :
  Str.partition sep a = None →
  Str.partition sep (a +:+ String sep b) = Some (a, b).
Proof.
  induction a as [|c a IH]; intros Hnone.
  - change (EmptyString +:+ String sep b) with (String sep b).
    cbn [Str.partition]. by rewrite Ascii.eqb_refl.
  - change (String c a +:+ String sep b) with (String c (a +:+ String sep b)).
    cbn [Str.partition] in *. destruct (Ascii.eqb c sep); [discriminate|].
    destruct (Str.partition sep a) as [[? ?]|]; [discriminate|].
    by rewrite IH.
Qed.

Lemma partition_some (sep : Ascii.ascii) (s a b : string) :
  Str.partition sep s = Some (a, b) →
  s = a +:+ String sep b ∧ Str.partition sep a = None.
Proof.
  revert a. induction s as [|c s IH]; intros a; cbn [Str.partition]; [discriminate|].
  destruct (Ascii.eqb_spec c sep) as [->|Hne].
  - intros [= <- <-]. split; reflexivity.
  - destruct (Str.partition sep s) as [[a' b']|]; [|discriminate].
    intros [= <- <-]. destruct (IH a' eq_refl) as [-> Hnone].
    split; [reflexivity|]. cbn [Str.partition].
    destruct (Ascii.eqb_spec c sep) as [?|_]; [contradiction|]. by rewrite Hnone.
Qed.

(** [s.split(sep, 1)] unpacked to two targets succeeds with [(a, b)]
    exactly when [s] is [a], the separator, then [b], with no separator inside
    [a]. *)
Lemma split1_unpack_iff (sep : Ascii.ascii) (s a b : string) :
  Str.unpack2 (Str.split1 sep s) = Ok (a, b)
  ↔ s = a +:+ String sep b ∧ Str.partition sep a = None.
Proof.
  unfold Str.split1. split.
  - destruct (Str.partition sep s) as [[a' b']|] eqn:Hp; cbn [Str.unpack2]; [|discriminate].
    intros [= <- <-]. by apply partition_some.
  - intros [-> Hnone]. by rewrite (partition_app sep a b Hnone).
Qed.

(** X1.  [_, sid = call.data.split("|", 1)] yields [sid] exactly when the
    payload is a verb without a bar, one bar, then [sid]: the cut is at the
    first bar, and an id that itself contains bars comes back whole.  A
    payload without any bar raises [ValueError], a query without data
    [AttributeError]; no request is made either way. *)
Theorem callback_sid_round_trip (c : CallbackQuery) (tr : Transport) (g : Globals) :
  (∀ sid, outcome (callback_sid c tr g) = Ok sid
          ↔ ∃ verb, data c = Some (verb +:+ String "|" sid)
                    ∧ Str.partition "|" verb = None)
  ∧ (outcome (callback_sid c tr g) = Raise ValueError
     ↔ ∃ d, data c = Some d ∧ Str.partition "|" d = None)
  ∧ (outcome (callback_sid c tr g) = Raise AttributeError ↔ data c = None)
  ∧ effects (callback_sid c tr g) = [].
Proof.
  unfold callback_sid. destruct (data c) as [d|].
  - pose proof (split1_unpack_iff "|" d) as Hsplit. unfold Str.split1 in *.
    destruct (Str.partition "|" d) as [[a b]|] eqn:Hp; cbn [Str.unpack2] in *.
    + repeat split; try discriminate; try reflexivity.
      * intros [= <-]. exists a.
        destruct (proj1 (Hsplit a b) eq_refl) as [Hd Ha]. by rewrite <- Hd.
      * intros (verb & [= Hd] & Hverb).
        assert (Ok (a, b) = Ok (verb, sid)) as [= _ ->]; [|reflexivity].
        by apply Hsplit.
      * intros (d' & [= <-] & ?). congruence.
    + repeat split; try discriminate; try reflexivity.
      * intros (verb & [= Hd] & Hverb).
        assert (@Raise (string * string) ValueError = Ok (verb, sid)) as Habs
          by (by apply Hsplit). discriminate Habs.
      * intros _. by exists d.
  - repeat split; try discriminate; try reflexivity.
    + intros (verb & ? & _). discriminate.
    + intros (d & ? & _). discriminate.
Qed.

Lemma startswith_app (d p : string) :
  Str.startswith d p = true → ∃ x, d = p +:+ x.
Proof.
  revert d. induction p as [|c p IH]; intros d; cbn [Str.startswith].
  - intros _. by exists d.
  - destruct d as [|c' d]; [discriminate|].
    intros [Hc Hrest]%andb_true_iff. apply Ascii.eqb_eq in Hc as ->.
    destruct (IH d Hrest) as [x ->]. by exists x.
Qed.

Lemma data_startswith_inv (c : CallbackQuery) (p : string) :
  data_startswith c p = true → ∃ x, data c = Some (p +:+ x).
Proof.
  unfold data_startswith. destruct (data c) as [d|]; [|discriminate].
  intros [_ Hp]%andb_true_iff. destruct (startswith_app d p Hp) as [x ->]. by exists x.
Qed.

(** ** The layout of the section keyboards *)

Lemma odd_step (i : nat) :
  i mod 2 = 1%nat → Nat.eqb (i mod 2) 0 = false ∧ Nat.eqb (S i mod 2) 0 = true
                    ∧ S (S i) mod 2 = 1%nat.
Proof.
  intros Hodd.
  pose proof (Nat.div_mod_eq i 2). pose proof (Nat.div_mod_eq (S i) 2).
  pose proof (Nat.div_mod_eq (S (S i)) 2).
  pose proof (Nat.mod_upper_bound (S i) 2). pose proof (Nat.mod_upper_bound (S (S i)) 2).
  split; [rewrite Hodd; reflexivity|]. split; [apply Nat.eqb_eq|]; lia.
Qed.

Lemma concat_chunks2 {A : Type} (l : list A) : concat (chunks2 l) = l.
Proof.
  assert (H : concat (chunks2 l) = l ∧ ∀ a, concat (chunks2 (a :: l)) = a :: l).
  { induction l as [|b l [IH1 IH2]]; [split; reflexivity|].
    split; [apply IH2|]. intros a. cbn [chunks2 concat app]. by rewrite IH1. }
  apply H.
Qed.

Lemma sections_rows_odd (ss : list Content.PlannerSection) :
  ∀ (kb : ReplyKeyboardMarkup) (i : nat),
    i mod 2 = 1%nat →
    keyboard (sections_rows kb [] i ss).1
      ++ match (sections_rows kb [] i ss).2 with [] => [] | r => [r] end
    = keyboard kb ++ chunks2 ((λ s, {| kb_text := Content.title s |}) <$> ss)
    ∧ resize_keyboard (sections_rows kb [] i ss).1 = resize_keyboard kb
    ∧ reply_row_width (sections_rows kb [] i ss).1 = reply_row_width kb.
Proof.
  assert (H : (∀ kb i, i mod 2 = 1%nat →
                 keyboard (sections_rows kb [] i ss).1
                   ++ match (sections_rows kb [] i ss).2 with [] => [] | r => [r] end
                 = keyboard kb ++ chunks2 ((λ s, {| kb_text := Content.title s |}) <$> ss)
                 ∧ resize_keyboard (sections_rows kb [] i ss).1 = resize_keyboard kb
                 ∧ reply_row_width (sections_rows kb [] i ss).1 = reply_row_width kb)
              ∧ (∀ a kb i, i mod 2 = 1%nat →
                 keyboard (sections_rows kb [] i (a :: ss)).1
                   ++ match (sections_rows kb [] i (a :: ss)).2 with [] => [] | r => [r] end
                 = keyboard kb
                   ++ chunks2 ((λ s, {| kb_text := Content.title s |}) <$> (a :: ss))
                 ∧ resize_keyboard (sections_rows kb [] i (a :: ss)).1 = resize_keyboard kb
                 ∧ reply_row_width (sections_rows kb [] i (a :: ss)).1 = reply_row_width kb)).
  { induction ss as [|b ss [IH1 IH2]].
    - split.
      + intros kb i _. cbn. by rewrite app_nil_r.
      + intros a kb i Hodd. destruct (odd_step i Hodd) as (Hi & _ & _).
        cbn [sections_rows]. rewrite Hi. cbn. done.
    - split; [apply IH2|].
      intros a kb i Hodd. destruct (odd_step i Hodd) as (Hi & HSi & HSSi).
      cbn [sections_rows]. rewrite Hi. cbn [app]. rewrite HSi.
      destruct (IH1 (reply_row kb [{| kb_text := Content.title a |};
                                   {| kb_text := Content.title b |}]) (S (S i)) HSSi)
        as (Hrows & Hresize & Hwidth).
      rewrite Hrows, Hresize, Hwidth. cbn [reply_row keyboard resize_keyboard
        reply_row_width Aiogram.row fmap list_fmap chunks2].
      unfold Aiogram.row. by rewrite <- app_assoc. }
  apply H.
Qed.

Lemma sections_reply_keyboard_rows (g : Globals) :
  keyboard (build_sections_reply_keyboard g)
    = chunks2 ((λ s, {| kb_text := Content.title s |}) <$> SECTIONS g)
      ++ [[{| kb_text := "Назад" |}]]
  ∧ concat (keyboard (build_sections_reply_keyboard g))
    = ((λ s, {| kb_text := Content.title s |}) <$> SECTIONS g) ++ [{| kb_text := "Назад" |}]
  ∧ resize_keyboard (build_sections_reply_keyboard g) = true.
Proof.
  assert (Hkb : keyboard (build_sections_reply_keyboard g)
                = chunks2 ((λ s, {| kb_text := Content.title s |}) <$> SECTIONS g)
                  ++ [[{| kb_text := "Назад" |}]]
                ∧ resize_keyboard (build_sections_reply_keyboard g) = true).
  { unfold build_sections_reply_keyboard.
    destruct (sections_rows_odd (SECTIONS g) (new_reply true) 1 eq_refl)
      as (Hrows & Hresize & Hwidth).
    destruct (sections_rows (new_reply true) [] 1 (SECTIONS g)) as [kb row].
    cbn [fst snd] in *. cbn [new_reply keyboard resize_keyboard reply_row_width app] in *.
    destruct row as [|b row]; [rewrite app_nil_r in Hrows|];
      unfold reply_add, reply_row; cbn [keyboard resize_keyboard reply_row_width];
      rewrite Hwidth, Hresize; unfold Aiogram.add, Aiogram.row; cbn [add_loop];
      cbn; by rewrite Hrows. }
  destruct Hkb as [Hkb Hresize]. split; [exact Hkb|]. split; [|exact Hresize].
  rewrite Hkb, concat_app, concat_chunks2. reflexivity.
Qed.

(** X2.  The reply keyboard of the sections is the titles in catalog order,
    two to a row, an odd last title on a row of its own, and then one row
    with the button "Назад" -- also when there is no section at all; the
    keyboard asks to be resized. *)
Theorem sections_reply_keyboard_layout (g : Globals) :
  keyboard (build_sections_reply_keyboard g)
    = chunks2 ((λ s, {| kb_text := Content.title s |}) <$> SECTIONS g)
      ++ [[{| kb_text := "Назад" |}]]
  ∧ concat (keyboard (build_sections_reply_keyboard g))
    = ((λ s, {| kb_text := Content.title s |}) <$> SECTIONS g) ++ [{| kb_text := "Назад" |}]
  ∧ resize_keyboard (build_sections_reply_keyboard g) = true.
Proof. apply sections_reply_keyboard_rows. Qed.

Lemma add_single {B : Type} (rows : list (list B)) (b : B) :
  Aiogram.add 2 rows [b] = rows ++ [[b]].
Proof. reflexivity. Qed.

Lemma insert_cons {B : Type} (w : nat) (r r' : list B) (rows : list (list B)) (b : B) :
  Aiogram.insert w (r :: r' :: rows) b = r :: Aiogram.insert w (r' :: rows) b.
Proof.
  assert (Hadd : ∀ R : list (list B), Aiogram.add w (r :: R) [b] = r :: Aiogram.add w R [b]).
  { intros R. unfold Aiogram.add. cbn [add_loop app].
    destruct (Nat.eqb (1 mod w) 0); reflexivity. }
  unfold Aiogram.insert. rewrite last_cons_cons.
  destruct (last (r' :: rows)) as [lr|]; [|apply Hadd].
  destruct (Nat.ltb (length lr) w); [reflexivity | apply Hadd].
Qed.

Lemma insert_chunks2 {B : Type} (l : list B) (b : B) :
  Aiogram.insert 2 (chunks2 l) b = chunks2 (l ++ [b]).
Proof.
  assert (H : Aiogram.insert 2 (chunks2 l) b = chunks2 (l ++ [b])
              ∧ ∀ a, Aiogram.insert 2 (chunks2 (a :: l)) b = chunks2 ((a :: l) ++ [b])).
  { induction l as [|x l [IH1 IH2]]; [split; reflexivity|].
    split; [apply IH2|]. intros a. cbn [chunks2 app].
    destruct l as [|y l]; [reflexivity|].
    destruct (chunks2 (y :: l)) as [|r rows] eqn:Hc.
    - destruct l; discriminate Hc.
    - rewrite insert_cons. by rewrite IH1. }
  apply H.
Qed.

Lemma fold_insert_chunks2 (ss : list Content.PlannerSection) (l : list InlineKeyboardButton) :
  fold_left (λ ikb s, inline_insert ikb (section_button s)) ss
    {| inline_keyboard := chunks2 l; inline_row_width := 2 |}
  = {| inline_keyboard := chunks2 (l ++ (section_button <$> ss)); inline_row_width := 2 |}.
Proof.
  revert l. induction ss as [|s ss IH]; intros l; cbn [fold_left fmap list_fmap].
  - by rewrite app_nil_r.
  - unfold inline_insert at 2. cbn [inline_keyboard inline_row_width].
    rewrite insert_chunks2, IH, <- app_assoc. reflexivity.
Qed.

Lemma sections_inline_keyboard_rows (g : Globals) :
  inline_keyboard (build_inline_sections_keyboard g)
    = chunks2 (section_button <$> SECTIONS g)
      ++ [[{| ikb_text := "Купить планер"; callback_data := None; url := BUY_URL g |}];
          [{| ikb_text := "Связаться с автором"; callback_data := None;
              url := CONTACT_URL g |}]]
  ∧ inline_buttons (build_inline_sections_keyboard g)
    = (section_button <$> SECTIONS g)
      ++ [{| ikb_text := "Купить планер"; callback_data := None; url := BUY_URL g |};
          {| ikb_text := "Связаться с автором"; callback_data := None;
             url := CONTACT_URL g |}].
Proof.
  assert (Hrows : inline_keyboard (build_inline_sections_keyboard g)
    = chunks2 (section_button <$> SECTIONS g)
      ++ [[{| ikb_text := "Купить планер"; callback_data := None; url := BUY_URL g |}];
          [{| ikb_text := "Связаться с автором"; callback_data := None;
              url := CONTACT_URL g |}]]).
  { unfold build_inline_sections_keyboard.
    pose proof (fold_insert_chunks2 (SECTIONS g) []) as Hfold.
    unfold section_button in Hfold at 1. cbn [chunks2 app] in Hfold.
    unfold new_inline. rewrite Hfold.
    unfold inline_add. cbn [inline_keyboard inline_row_width].
    rewrite !add_single, <- app_assoc. reflexivity. }
  split; [exact Hrows|].
  unfold inline_buttons. rewrite Hrows, concat_app, concat_chunks2. reflexivity.
Qed.

(** X3.  The inline keyboard of the sections is one button per section in
    catalog order, titled with the section's title and carrying the payload
    [sect|<id>], two to a row, an odd last one on a row of its own; then a
    row with the link "Купить планер" to [BUY_URL] and a row with the link
    "Связаться с автором" to [CONTACT_URL].  The two links carry no payload,
    and carry no address either when the URL is missing. *)
Theorem sections_inline_keyboard_layout (g : Globals) :
  inline_keyboard (build_inline_sections_keyboard g)
    = chunks2 (section_button <$> SECTIONS g)
      ++ [[{| ikb_text := "Купить планер"; callback_data := None; url := BUY_URL g |}];
          [{| ikb_text := "Связаться с автором"; callback_data := None;
              url := CONTACT_URL g |}]]
  ∧ inline_buttons (build_inline_sections_keyboard g)
    = (section_button <$> SECTIONS g)
      ++ [{| ikb_text := "Купить планер"; callback_data := None; url := BUY_URL g |};
          {| ikb_text := "Связаться с автором"; callback_data := None;
             url := CONTACT_URL g |}].
Proof. apply sections_inline_keyboard_rows. Qed.

(** ** Every button the bot shows is served *)

Lemma find_exists {A : Type} (p : A → bool) (l : list A) (x0 : A) :
  x0 ∈ l → p x0 = true → ∃ x, List.find p l = Some x ∧ x ∈ l ∧ p x = true.
Proof.
  intros Hin Hp. destruct (List.find p l) as [x|] eqn:Hfind.
  - apply find_some in Hfind as [Hx Hpx]. exists x.
    split; [reflexivity|]. split; [by apply list_elem_of_In | exact Hpx].
  - apply list_elem_of_In in Hin.
    rewrite (find_none p l Hfind x0 Hin) in Hp. discriminate Hp.
Qed.

Lemma section_by_id_exists (ss : list Content.PlannerSection) (s0 : Content.PlannerSection) :
  s0 ∈ ss →
  ∃ s, section_by_id ss (Content.id s0) = Some s ∧ s ∈ ss ∧ Content.id s = Content.id s0.
Proof.
  intros Hin. unfold section_by_id.
  destruct (find_exists (λ s, String.eqb (Content.id s) (Content.id s0)) ss s0 Hin
              (String.eqb_refl _)) as (s & Hfind & Hs & Heq).
  exists s. split; [exact Hfind|]. split; [exact Hs|]. by apply String.eqb_eq.
Qed.

Lemma section_by_title_exists (ss : list Content.PlannerSection) (m : Message)
    (s0 : Content.PlannerSection) :
  s0 ∈ ss → Aiogram.text m = Some (Content.title s0) →
  ∃ s, section_by_title ss m = Some s ∧ s ∈ ss ∧ Content.title s = Content.title s0.
Proof.
  intros Hin Ht. unfold section_by_title.
  destruct (find_exists (λ s, text_is m (Content.title s)) ss s0 Hin) as (s & Hfind & Hs & Heq).
  { rewrite (text_is_label m _ _ Ht). apply String.eqb_refl. }
  exists s. split; [exact Hfind|]. split; [exact Hs|].
  rewrite (text_is_label m _ _ Ht) in Heq. apply String.eqb_eq in Heq. by symmetry.
Qed.

(** X4.  Every button with a payload on the inline keyboard of the sections
    is served: pressed, it is acknowledged and answered with the content of
    a section of the catalog that has the id in the payload, under that
    section's detail keyboard -- never with "Раздел не найден", and never
    left without a handler. *)
Theorem section_buttons_are_served (tr : Transport) (g : Globals) (c : CallbackQuery)
    (b : InlineKeyboardButton) (d : string) :
  b ∈ inline_buttons (build_inline_sections_keyboard g) →
  callback_data b = Some d →
  data c = Some d →
  ∃ s, s ∈ SECTIONS g
       ∧ d = "sect|" +:+ Content.id s
       ∧ ikb_text b ∈ Content.title <$> SECTIONS g
       ∧ route_callback c tr g
         = (call_answer c None false;;
            send_section (message_chat_id c) s (Some (Inline (detail_keyboard s)))) tr g.
Proof.
  intros Hb Hd Hc.
  rewrite (proj2 (sections_inline_keyboard_rows g)) in Hb.
  apply elem_of_app in Hb as [Hb|Hb].
  - apply list_elem_of_fmap in Hb as (s0 & -> & Hs0).
    cbn [section_button callback_data] in Hd. injection Hd as <-.
    destruct (section_by_id_exists _ _ Hs0) as (s & Hfind & Hs & Hid).
    exists s. split; [exact Hs|]. split; [by rewrite Hid|].
    split; [exact (list_elem_of_fmap_2 Content.title _ s0 Hs0)|].
    rewrite (route_sect c _ Hc). unfold inline_section_callback.
    rewrite (bind_ok _ _ tr g _ (callback_sid_sect c _ tr g Hc)), bind_global.
    by rewrite Hfind.
  - apply elem_of_cons in Hb as [->|Hb]; [discriminate Hd|].
    apply list_elem_of_singleton in Hb as ->. discriminate Hd.
Qed.

Lemma section_buttons_are_served_witness :
  section_button habits
    ∈ inline_buttons (build_inline_sections_keyboard (sample_globals "inline" [wings; habits]))
  ∧ callback_data (section_button habits) = Some "sect|b"
  ∧ data (callback 7 "sect|b") = Some "sect|b"
  ∧ ∃ s, s ∈ [wings; habits]
         ∧ "sect|b" = "sect|" +:+ Content.id s
         ∧ route_callback (callback 7 "sect|b") accept_all
             (sample_globals "inline" [wings; habits])
           = (call_answer (callback 7 "sect|b") None false;;
              send_section 7 s (Some (Inline (detail_keyboard s)))) accept_all
               (sample_globals "inline" [wings; habits]).
Proof.
  assert (H1 : section_button habits
               ∈ inline_buttons (build_inline_sections_keyboard
                                   (sample_globals "inline" [wings; habits]))).
  { apply list_elem_of_In. cbn. tauto. }
  assert (H2 : callback_data (section_button habits) = Some "sect|b") by reflexivity.
  assert (H3 : data (callback 7 "sect|b") = Some "sect|b") by reflexivity.
  destruct (section_buttons_are_served accept_all (sample_globals "inline" [wings; habits])
              (callback 7 "sect|b") (section_button habits) "sect|b" H1 H2 H3)
    as (s & Hs & Hd & _ & Hroute).
  split; [exact H1|]. split; [exact H2|]. split; [exact H3|].
  exists s. split; [exact Hs|]. split; [exact Hd | exact Hroute].
Defined.

(** X5.  The buttons of the detail keyboard of a catalog section are served
    too, whatever its [has_more]: "Назад" goes to [back_callback], and
    "Подробнее" is acknowledged and answered with one text message taken from
    a section of the catalog with the same id -- never with "Раздел не
    найден". *)
Theorem detail_buttons_are_served (tr : Transport) (g : Globals) (c : CallbackQuery)
    (s : Content.PlannerSection) (b : InlineKeyboardButton) :
  s ∈ SECTIONS g →
  b ∈ inline_buttons (detail_keyboard s) →
  data c = callback_data b →
  (data c = Some "back_to_menu" ∧ route_callback c = back_callback c)
  ∨ (Content.has_more s = Some true
     ∧ ∃ s', s' ∈ SECTIONS g
             ∧ Content.id s' = Content.id s
             ∧ route_callback c tr g
               = (call_answer c None false;;
                  bot_send_message (message_chat_id c)
                    (if Str.truthy (Content.more_text s')
                     then default "" (Content.more_text s')
                     else "Дополнительная информация отсутствует.") None) tr g).
Proof.
  intros Hs Hb Hc. rewrite detail_keyboard_buttons in Hb.
  apply elem_of_app in Hb as [Hb|Hb].
  - right. destruct (Content.has_more s) as [[|]|]; cbn [default] in Hb;
      try (by apply elem_of_nil in Hb).
    split; [reflexivity|].
    apply list_elem_of_singleton in Hb as ->. cbn [callback_data] in Hc.
    destruct (section_by_id_exists _ _ Hs) as (s' & Hfind & Hs' & Hid).
    exists s'. split; [exact Hs'|]. split; [exact Hid|].
    rewrite (route_more c _ Hc). unfold inline_more_callback.
    rewrite (bind_ok _ _ tr g _ (callback_sid_more c _ tr g Hc)), bind_global.
    by rewrite Hfind.
  - left. apply list_elem_of_singleton in Hb as ->. cbn [callback_data] in Hc.
    split; [exact Hc | by apply route_back_callback].
Qed.

Lemma detail_buttons_are_served_witness :
  habits ∈ SECTIONS (sample_globals "inline" [wings; habits])
  ∧ {| ikb_text := "Подробнее"; callback_data := Some "more|b"; url := None |}
      ∈ inline_buttons (detail_keyboard habits)
  ∧ data (callback 7 "more|b") = Some "more|b"
  ∧ ∃ s', s' ∈ SECTIONS (sample_globals "inline" [wings; habits])
          ∧ Content.id s' = Content.id habits
          ∧ route_callback (callback 7 "more|b") accept_all
              (sample_globals "inline" [wings; habits])
            = (call_answer (callback 7 "more|b") None false;;
               bot_send_message 7
                 (if Str.truthy (Content.more_text s')
                  then default "" (Content.more_text s')
                  else "Дополнительная информация отсутствует.") None) accept_all
                (sample_globals "inline" [wings; habits]).
Proof.
  assert (H1 : habits ∈ SECTIONS (sample_globals "inline" [wings; habits])).
  { apply list_elem_of_In. cbn. tauto. }
  assert (H2 : {| ikb_text := "Подробнее"; callback_data := Some "more|b"; url := None |}
               ∈ inline_buttons (detail_keyboard habits)).
  { apply list_elem_of_In. cbn. tauto. }
  split; [exact H1|]. split; [exact H2|]. split; [reflexivity|].
  destruct (detail_buttons_are_served accept_all (sample_globals "inline" [wings; habits])
              (callback 7 "more|b") habits _ H1 H2 eq_refl)
    as [[Hback _]|(_ & s' & Hs' & Hid & Hroute)]; [discriminate Hback|].
  exists s'. split; [exact Hs'|]. split; [exact Hid | exact Hroute].
Defined.

Lemma route_fixed (is_command : list string → Message → bool) (m : Message) (label : string) :
  free_text is_command m → Aiogram.text m = Some label → label ∈ fixed_labels →
  route_message is_command m = fixed_handler label m.
Proof.
  intros [Hstart Hhelp] Ht Hlabel. unfold route_message.
  rewrite (is_text_some m _ Ht), Hstart, Hhelp.
  rewrite !(text_is_label m label _ Ht). unfold fixed_labels in Hlabel.
  repeat (apply elem_of_cons in Hlabel as [->|Hlabel]); try reflexivity.
  by apply elem_of_nil in Hlabel.
Qed.

Lemma route_title_first (is_command : list string → Message → bool) (tr : Transport)
    (g : Globals) (m : Message) (t : string) (s : Content.PlannerSection) :
  free_text is_command m → Aiogram.text m = Some t → t ∉ fixed_labels →
  section_by_title (SECTIONS g) m = Some s →
  route_message is_command m tr g = send_section (chat_id m) s None tr g.
Proof.
  intros [Hstart Hhelp] Ht Hnot Hfind.
  destruct (not_fixed_label _ Hnot) as (H1 & H2 & H3 & H4 & H5).
  unfold route_message. rewrite (is_text_some m _ Ht), Hstart, Hhelp.
  rewrite !(text_is_label m _ _ Ht), H1, H2, H3, H4, H5, bind_global.
  assert (Hany : any_title (SECTIONS g) m = true).
  { unfold any_title. apply existsb_exists. exists s.
    unfold section_by_title in Hfind. by apply find_some in Hfind. }
  rewrite Hany. unfold section_selected. by rewrite bind_global, Hfind.
Qed.

(** X6.  No button of the two reply keyboards leads to the fallback
    "Не понимаю".  The text of a button of the main menu, or of the sections
    keyboard, sent back as free text, is served by the handler of a fixed
    label when it is one, and otherwise by [send_section], without keyboard,
    on a section of the catalog with that title. *)
Theorem reply_buttons_are_served (is_command : list string → Message → bool)
    (tr : Transport) (g : Globals) (m : Message) (b : KeyboardButton) :
  free_text is_command m →
  b ∈ concat (keyboard build_menu_keyboard)
    ∨ b ∈ concat (keyboard (build_sections_reply_keyboard g)) →
  Aiogram.text m = Some (kb_text b) →
  (kb_text b ∈ fixed_labels
   ∧ route_message is_command m tr g = fixed_handler (kb_text b) m tr g)
  ∨ ((kb_text b ∉ fixed_labels)
     ∧ ∃ s, s ∈ SECTIONS g
            ∧ Content.title s = kb_text b
            ∧ route_message is_command m tr g = send_section (chat_id m) s None tr g).
Proof.
  intros Hfree Hb Ht.
  destruct (decide (kb_text b ∈ fixed_labels)) as [Hfix|Hnot].
  { left. split; [exact Hfix|]. by rewrite (route_fixed is_command m _ Hfree Ht Hfix). }
  right. split; [exact Hnot|].
  assert (Hsec : ∃ s0, s0 ∈ SECTIONS g ∧ Content.title s0 = kb_text b).
  { destruct Hb as [Hb|Hb].
    - exfalso. apply Hnot. apply list_elem_of_In in Hb. cbn in Hb.
      apply list_elem_of_In.
      destruct Hb as [<-|[<-|[<-|[<-|[]]]]]; cbn; tauto.
    - rewrite (proj1 (proj2 (sections_reply_keyboard_rows g))) in Hb.
      apply elem_of_app in Hb as [Hb|Hb].
      + apply list_elem_of_fmap in Hb as (s0 & -> & Hs0). by exists s0.
      + exfalso. apply Hnot. apply list_elem_of_singleton in Hb as ->.
        apply list_elem_of_In. cbn. tauto. }
  destruct Hsec as (s0 & Hs0 & Htitle). rewrite <- Htitle in Ht.
  destruct (section_by_title_exists _ m s0 Hs0 Ht) as (s & Hfind & Hs & Heq).
  exists s. split; [exact Hs|]. split; [congruence|].
  apply (route_title_first is_command tr g m (Content.title s0)); try done.
  by rewrite Htitle.
Qed.

Lemma reply_buttons_are_served_witness :
  free_text slash_command (text_message 7 "Habits")
  ∧ {| kb_text := "Habits" |}
      ∈ concat (keyboard (build_sections_reply_keyboard
                            (sample_globals "menu" [wings; habits])))
  ∧ Aiogram.text (text_message 7 "Habits") = Some "Habits"
  ∧ ∃ s, s ∈ SECTIONS (sample_globals "menu" [wings; habits])
         ∧ Content.title s = "Habits"
         ∧ route_message slash_command (text_message 7 "Habits") accept_all
             (sample_globals "menu" [wings; habits])
           = send_section 7 s None accept_all (sample_globals "menu" [wings; habits]).
Proof.
  assert (H1 : free_text slash_command (text_message 7 "Habits"))
    by (split; reflexivity).
  assert (H2 : {| kb_text := "Habits" |}
               ∈ concat (keyboard (build_sections_reply_keyboard
                                     (sample_globals "menu" [wings; habits])))).
  { apply list_elem_of_In. cbn. tauto. }
  split; [exact H1|]. split; [exact H2|]. split; [reflexivity|].
  destruct (reply_buttons_are_served slash_command accept_all
              (sample_globals "menu" [wings; habits]) (text_message 7 "Habits")
              {| kb_text := "Habits" |} H1 (or_intror H2) eq_refl)
    as [[Hfix _]|(_ & s & Hs & Htitle & Hroute)].
  - exfalso. apply list_elem_of_In in Hfix. cbn in Hfix.
    destruct Hfix as [H|[H|[H|[H|[H|[]]]]]]; discriminate H.
  - exists s. split; [exact Hs|]. split; [exact Htitle | exact Hroute].
Defined.

(** ** The shape of a served update *)

Lemma any_title_find (ss : list Content.PlannerSection) (m : Message) :
  any_title ss m = true → ∃ s, section_by_title ss m = Some s ∧ s ∈ ss.
Proof.
  unfold any_title. intros (s0 & Hin & Hp)%existsb_exists.
  apply list_elem_of_In in Hin.
  destruct (find_exists (λ s, text_is m (Content.title s)) ss s0 Hin Hp)
    as (s & Hfind & Hs & _).
  by exists s.
Qed.

(** A message without text is left alone; a text message is served by one
    [send_message], or by [send_section] on a section of the catalog. *)
Lemma route_message_cases (is_command : list string → Message → bool) (m : Message)
    (tr : Transport) (g : Globals) :
  (Aiogram.text m = None
   ∧ route_message is_command m tr g = {| effects := []; globals := g; outcome := Ok tt |})
  ∨ (Aiogram.text m ≠ None
     ∧ ∃ txt rm, route_message is_command m tr g
                 = call (send_message_req (chat_id m) txt rm) tr g)
  ∨ (Aiogram.text m ≠ None
     ∧ ∃ s, s ∈ SECTIONS g
            ∧ route_message is_command m tr g = send_section (chat_id m) s None tr g).
Proof.
  unfold route_message, is_text.
  destruct (Aiogram.text m) as [t|] eqn:Ht; [|left; by split].
  cbn [negb]. right.
  assert (Hsome : Some t ≠ None) by discriminate.
  destruct (is_command ["start"] m); [left; split; [done|]; do 2 eexists; reflexivity|].
  destruct (is_command ["help"] m); [left; split; [done|]; do 2 eexists; reflexivity|].
  destruct (text_is m "Выбрать раздел").
  { left. split; [done|]. unfold show_sections_menu. rewrite bind_global.
    destruct (String.eqb (INTERFACE_MODE g) "menu"); do 2 eexists; reflexivity. }
  destruct (text_is m "Купить планер"); [left; split; [done|]; do 2 eexists; reflexivity|].
  destruct (text_is m "Связаться с автором");
    [left; split; [done|]; do 2 eexists; reflexivity|].
  destruct (text_is m "Помощь"); [left; split; [done|]; do 2 eexists; reflexivity|].
  destruct (text_is m "Назад"); [left; split; [done|]; do 2 eexists; reflexivity|].
  rewrite bind_global. destruct (any_title (SECTIONS g) m) eqn:Hany.
  - right. split; [done|]. destruct (any_title_find _ _ Hany) as (s & Hfind & Hs).
    exists s. split; [exact Hs|]. unfold section_selected.
    by rewrite bind_global, Hfind.
  - left. split; [done|]. do 2 eexists. reflexivity.
Qed.

(** A callback is left alone, answered with an alert only, or acknowledged
    and then served by one [send_message] or by [send_section]. *)
Lemma route_callback_cases (c : CallbackQuery) (tr : Transport) (g : Globals) :
  (data_startswith c "sect|" = false ∧ data_startswith c "more|" = false
   ∧ data_is c "back_to_menu" = false
   ∧ route_callback c tr g = {| effects := []; globals := g; outcome := Ok tt |})
  ∨ (∃ alert sa, route_callback c tr g
                 = call (answer_callback_query_req (query_id c) alert sa) tr g)
  ∨ (∃ txt rm, route_callback c tr g
               = (call_answer c None false;;
                  bot_send_message (message_chat_id c) txt rm) tr g)
  ∨ (∃ s rm, s ∈ SECTIONS g
             ∧ route_callback c tr g
               = (call_answer c None false;; send_section (message_chat_id c) s rm) tr g).
Proof.
  unfold route_callback.
  destruct (data_startswith c "sect|") eqn:Hsect.
  { destruct (data_startswith_inv c _ Hsect) as [x Hd]. unfold inline_section_callback.
    rewrite (bind_ok _ _ tr g _ (callback_sid_sect c x tr g Hd)), bind_global.
    destruct (section_by_id (SECTIONS g) x) as [s|] eqn:Hfind.
    - right; right; right. exists s. eexists. split; [|reflexivity].
      unfold section_by_id in Hfind. apply find_some in Hfind as [Hin _].
      by apply list_elem_of_In.
    - right; left. do 2 eexists. reflexivity. }
  destruct (data_startswith c "more|") eqn:Hmore.
  { destruct (data_startswith_inv c _ Hmore) as [x Hd]. unfold inline_more_callback.
    rewrite (bind_ok _ _ tr g _ (callback_sid_more c x tr g Hd)), bind_global.
    destruct (section_by_id (SECTIONS g) x) as [s|].
    - right; right; left. do 2 eexists. reflexivity.
    - right; left. do 2 eexists. reflexivity. }
  destruct (data_is c "back_to_menu") eqn:Hback.
  { right; right; left. unfold back_callback.
    destruct (String.eqb (INTERFACE_MODE g) "menu") eqn:Hmode.
    - do 2 eexists. run_bot.
      destruct (tr (answer_callback_query_req _ _ _)); cbn [effects globals outcome];
        [rewrite Hmode|]; reflexivity.
    - do 2 eexists. run_bot.
      destruct (tr (answer_callback_query_req _ _ _)); cbn [effects globals outcome];
        [rewrite Hmode|]; reflexivity. }
  left. repeat split; reflexivity.
Qed.

Lemma call_run (q : Request) (tr : Transport) (g : Globals) :
  call q tr g
  = if tr q
    then {| effects := [Delivered q]; globals := g; outcome := Ok tt |}
    else {| effects := [Refused q]; globals := g; outcome := Raise TelegramAPIError |}.
Proof. unfold call. by destruct (tr q). Qed.

Lemma ack_then (c : CallbackQuery) (k : Bot unit) (tr : Transport) (g : Globals) :
  (call_answer c None false;; k) tr g
  = if tr (answer_callback_query_req (query_id c) None false)
    then {| effects := Delivered (answer_callback_query_req (query_id c) None false)
                       :: effects (k tr g);
            globals := globals (k tr g);
            outcome := outcome (k tr g) |}
    else {| effects := [Refused (answer_callback_query_req (query_id c) None false)];
            globals := g;
            outcome := Raise TelegramAPIError |}.
Proof. run_bot. by destruct (tr _). Qed.

(** The cases of [send_section], one by one. *)
Ltac send_section_cases :=
  rewrite send_section_run; cbv zeta;
  repeat match goal with
         | |- context [if ?b then _ else _] => destruct b eqn:?
         end;
  cbn [effects globals outcome].

Lemma refusal_only_call (q : Request) (tr : Transport) (g : Globals) :
  refusal_only tr (call q tr g).
Proof.
  rewrite call_run. destruct (tr q) eqn:Hq; intros e; cbn; [discriminate|].
  intros [= <-]. split; [reflexivity|]. exists q. split; [left | exact Hq].
Qed.

Lemma refusal_only_send_section (chat : Z) (s : Content.PlannerSection) (rm : option Markup)
    (tr : Transport) (g : Globals) :
  refusal_only tr (send_section chat s rm tr g).
Proof.
  send_section_cases; intros e; cbn; try discriminate; intros [= <-];
    (split; [reflexivity|]); eexists; (split; [|eassumption]);
    apply list_elem_of_In; cbn; tauto.
Qed.

Lemma refusal_only_ack_then (c : CallbackQuery) (k : Bot unit) (tr : Transport)
    (g : Globals) :
  refusal_only tr (k tr g) → refusal_only tr ((call_answer c None false;; k) tr g).
Proof.
  intros Hk. rewrite ack_then.
  destruct (tr (answer_callback_query_req _ _ _)) eqn:Hack; intros e; cbn.
  - intros He. destruct (Hk e He) as [-> (q & Hq & Hrefused)].
    split; [reflexivity|]. exists q. split; [by right | exact Hrefused].
  - intros [= <-]. split; [reflexivity|]. eexists. split; [left | exact Hack].
Qed.

(** X7.  On globals in the content format -- every entry of the catalog an
    object with a string [id] and a string [title] -- a handler that the
    router runs raises only because Telegram refused a request, and with
    that error: the failing [next(...)] of [section_selected], the
    [ValueError] of the unpacking and the [AttributeError] of a query
    without data are out of reach, the filters having checked what the
    handlers rely on.  When Telegram carries out every request, every update
    ends without exception.  Entries without [id] or [title], which the
    import lets through, are outside this statement: X17 is about them. *)
Theorem handlers_raise_only_on_refusal (is_command : list string → Message → bool)
    (raw : Loader.Globals) (g : Globals) (u : Update) (tr : Transport) :
  typed raw = Some g →
  refusal_only tr (process_update is_command u tr g)
  ∧ ((∀ q, tr q = true) → outcome (process_update is_command u tr g) = Ok tt).
Proof.
  intros _.
  assert (Hrefusal : refusal_only tr (process_update is_command u tr g)).
  { destruct u as [m|c]; cbn [process_update].
    - destruct (route_message_cases is_command m tr g)
        as [[_ ->]|[(_ & txt & rm & ->)|(_ & s & _ & ->)]];
        [intros e; cbn; discriminate
        | apply refusal_only_call | apply refusal_only_send_section].
    - destruct (route_callback_cases c tr g)
        as [(_ & _ & _ & ->)|[(alert & sa & ->)|[(txt & rm & ->)|(s & rm & _ & ->)]]].
      + intros e. cbn. discriminate.
      + apply refusal_only_call.
      + apply refusal_only_ack_then, refusal_only_call.
      + apply refusal_only_ack_then, refusal_only_send_section. }
  split; [exact Hrefusal|]. intros Hall.
  destruct (outcome (process_update is_command u tr g)) as [[]|e] eqn:Hout; [reflexivity|].
  destruct (Hrefusal e Hout) as [_ (q & _ & Hq)]. rewrite Hall in Hq. discriminate Hq.
Qed.

Lemma handlers_raise_only_on_refusal_witness :
  ∃ raw g,
    Loader.startup digits_colon_secret (sample_environ None)
      (Loader.Document sound_document) = Ok raw
    ∧ typed raw = Some g
    ∧ outcome (process_update slash_command (UCallback (callback 7 "sect|a")) accept_all g)
      = Ok tt.
Proof.
  do 2 eexists. split; [reflexivity|].
  assert (H1 : typed
                 {| Loader.TOKEN := "123:abc";
                    Loader.INTERFACE_MODE := JStr "inline";
                    Loader.CONTENT := sound_map;
                    Loader.SECTIONS := JArr [entry "a" "Wings" "Wing design"];
                    Loader.BUY_URL := JNull;
                    Loader.CONTACT_URL := JNull;
                    Loader.WELCOME_TEXT := JStr "Привет!" |}
               = Some (sample_loaded [wings_loaded])) by reflexivity.
  split; [exact H1|].
  exact (proj2 (handlers_raise_only_on_refusal slash_command _ _
                  (UCallback (callback 7 "sect|a")) accept_all H1) (λ _, eq_refl)).
Defined.

Lemma sent_call_message (chat : Z) (txt : string) (rm : option Markup) (tr : Transport)
    (g : Globals) :
  (sent (call (send_message_req chat txt rm) tr g) ≤ 1)%nat
  ∧ (sent (call (send_message_req chat txt rm) tr g) = 1%nat
     ↔ outcome (call (send_message_req chat txt rm) tr g) = Ok tt).
Proof.
  rewrite call_run. unfold sent.
  destruct (tr _); cbn; split; try lia; split; intros; try discriminate; reflexivity.
Qed.

Lemma sent_send_section (chat : Z) (s : Content.PlannerSection) (rm : option Markup)
    (tr : Transport) (g : Globals) :
  (sent (send_section chat s rm tr g) ≤ 1)%nat
  ∧ (sent (send_section chat s rm tr g) = 1%nat
     ↔ outcome (send_section chat s rm tr g) = Ok tt).
Proof.
  unfold sent. send_section_cases; cbn; split; try lia;
    split; intros; try discriminate; reflexivity.
Qed.

Lemma sent_ack_then (c : CallbackQuery) (k : Bot unit) (tr : Transport) (g : Globals) :
  (sent (k tr g) ≤ 1)%nat ∧ (sent (k tr g) = 1%nat ↔ outcome (k tr g) = Ok tt) →
  (sent ((call_answer c None false;; k) tr g) ≤ 1)%nat
  ∧ (sent ((call_answer c None false;; k) tr g) = 1%nat
     ↔ outcome ((call_answer c None false;; k) tr g) = Ok tt).
Proof.
  intros Hk. rewrite ack_then. unfold sent in *.
  destruct (tr (answer_callback_query_req _ _ _)); cbn; [exact Hk|].
  split; [lia|]. split; intros; discriminate.
Qed.

(** X8.  One update, at most one message in the chat.  A text message is
    answered with exactly one message when its handler returns and with none
    when it raises; a message without text finds no handler and gets
    nothing.  A callback delivers a message only for a payload [sect|...],
    [more|...] or [back_to_menu], and then its handler has returned. *)
Theorem at_most_one_message (is_command : list string → Message → bool)
    (tr : Transport) (g : Globals) :
  (∀ m, (sent (route_message is_command m tr g) ≤ 1)%nat
        ∧ (Aiogram.text m ≠ None →
           (sent (route_message is_command m tr g) = 1%nat
            ↔ outcome (route_message is_command m tr g) = Ok tt))
        ∧ (Aiogram.text m = None →
           effects (route_message is_command m tr g) = []
           ∧ outcome (route_message is_command m tr g) = Ok tt))
  ∧ (∀ c, (sent (route_callback c tr g) ≤ 1)%nat
          ∧ (sent (route_callback c tr g) = 1%nat
             → outcome (route_callback c tr g) = Ok tt
               ∧ ((∃ sid, data c = Some ("sect|" +:+ sid) ∨ data c = Some ("more|" +:+ sid))
                  ∨ data c = Some "back_to_menu"))).
Proof.
  split.
  - intros m. destruct (route_message_cases is_command m tr g)
      as [[Hnone ->]|[(Hsome & txt & rm & ->)|(Hsome & s & _ & ->)]].
    + unfold sent. cbn. split; [lia|]. split; [by intros []|]. by intros _.
    + destruct (sent_call_message (chat_id m) txt rm tr g) as [Hle Hiff].
      split; [exact Hle|]. split; [by intros _|]. intros Hnone. by destruct Hsome.
    + destruct (sent_send_section (chat_id m) s None tr g) as [Hle Hiff].
      split; [exact Hle|]. split; [by intros _|]. intros Hnone. by destruct Hsome.
  - intros c.
    assert (Hdata : ∀ r : Run unit, sent r = 1%nat → route_callback c tr g = r →
              (∃ sid, data c = Some ("sect|" +:+ sid) ∨ data c = Some ("more|" +:+ sid))
              ∨ data c = Some "back_to_menu").
    { intros r Hsent Hr. unfold route_callback in Hr.
      destruct (data_startswith c "sect|") eqn:Hsect.
      { destruct (data_startswith_inv c _ Hsect) as [x Hd]. left. exists x. by left. }
      destruct (data_startswith c "more|") eqn:Hmore.
      { destruct (data_startswith_inv c _ Hmore) as [x Hd]. left. exists x. by right. }
      unfold data_is in Hr. destruct (data c) as [d|]; [|by subst r].
      destruct (String.eqb_spec d "back_to_menu") as [Heq|_].
      - right. by rewrite Heq.
      - by subst r. }
    destruct (route_callback_cases c tr g)
      as [(_ & _ & _ & Hr)|[(alert & sa & Hr)|[(txt & rm & Hr)|(s & rm & _ & Hr)]]].
    + rewrite Hr. unfold sent. cbn. split; [lia|]. intros; discriminate.
    + rewrite Hr, call_run. unfold sent. destruct (tr _); cbn; split; try lia;
        intros; discriminate.
    + split; [rewrite Hr; by apply sent_ack_then, sent_call_message|].
      intros Hsent. split; [|by eapply Hdata].
      rewrite Hr in Hsent |- *. by apply (sent_ack_then c _ tr g (sent_call_message _ _ _ tr g)).
    + split; [rewrite Hr; by apply sent_ack_then, sent_send_section|].
      intros Hsent. split; [|by eapply Hdata].
      rewrite Hr in Hsent |- *.
      by apply (sent_ack_then c _ tr g (sent_send_section _ _ _ tr g)).
Qed.

(** ** Where the requests go *)

Lemma requests_send_section (chat : Z) (s : Content.PlannerSection) (rm : option Markup)
    (tr : Transport) (g : Globals) :
  Forall (λ q, is_message q = true ∧ request_chat q = Some chat)
    (requests (effects (send_section chat s rm tr g))).
Proof. send_section_cases; cbn [requests]; repeat constructor. Qed.

(** X9.  Requests never leave the conversation of the update.  Every request
    made for a message goes to the chat the message came from; every request
    made for a callback is either the answer to that very query or a message
    to the chat of the message the button sat on. *)
Theorem requests_stay_in_the_chat (is_command : list string → Message → bool)
    (tr : Transport) (g : Globals) :
  (∀ m, Forall (λ q, request_chat q = Some (chat_id m))
          (requests (effects (route_message is_command m tr g))))
  ∧ (∀ c, Forall (λ q, request_query q = Some (query_id c)
                       ∨ request_chat q = Some (message_chat_id c))
            (requests (effects (route_callback c tr g)))).
Proof.
  split.
  - intros m. destruct (route_message_cases is_command m tr g)
      as [[_ ->]|[(_ & txt & rm & ->)|(_ & s & _ & ->)]].
    + constructor.
    + rewrite call_run. destruct (tr _); cbn; by repeat constructor.
    + eapply Forall_impl; [apply requests_send_section|]. by intros q [_ Hq].
  - intros c. destruct (route_callback_cases c tr g)
      as [(_ & _ & _ & ->)|[(alert & sa & ->)|[(txt & rm & ->)|(s & rm & _ & ->)]]].
    + constructor.
    + rewrite call_run. destruct (tr _); cbn; repeat constructor; by left.
    + rewrite ack_then. unfold bot_send_message. rewrite call_run.
      destruct (tr (answer_callback_query_req _ _ _)); cbn [effects requests];
        [destruct (tr _); cbn|]; repeat constructor; (by left) || (by right).
    + rewrite ack_then.
      destruct (tr (answer_callback_query_req _ _ _)); cbn [effects requests].
      * constructor; [by left|].
        eapply Forall_impl; [apply requests_send_section|]. intros q [_ Hq]. by right.
      * by repeat constructor.
Qed.

(** X10.  A callback that has a handler is answered first and once: unless
    none of the three filters accepts it, the first request is the answer to
    the query, what follows are content messages only, and nothing follows
    when Telegram refuses the answer -- a failed acknowledgement keeps the
    content from being sent. *)
Theorem callback_answered_first (c : CallbackQuery) (tr : Transport) (g : Globals) :
  (requests (effects (route_callback c tr g)) = []
   ∧ data_startswith c "sect|" = false ∧ data_startswith c "more|" = false
   ∧ data_is c "back_to_menu" = false)
  ∨ ∃ alert show_alert rest,
      requests (effects (route_callback c tr g))
        = answer_callback_query_req (query_id c) alert show_alert :: rest
      ∧ Forall (λ q, is_message q = true) rest
      ∧ (tr (answer_callback_query_req (query_id c) alert show_alert) = false →
         rest = [] ∧ outcome (route_callback c tr g) = Raise TelegramAPIError).
Proof.
  destruct (route_callback_cases c tr g)
    as [(H1 & H2 & H3 & ->)|[(alert & sa & ->)|[(txt & rm & ->)|(s & rm & _ & ->)]]].
  - by left.
  - right. exists alert, sa, []. rewrite call_run.
    destruct (tr _); cbn; (split; [reflexivity|]); (split; [constructor|]);
      intros; try discriminate; by split.
  - right. exists None, false. rewrite ack_then. unfold bot_send_message. rewrite call_run.
    destruct (tr (answer_callback_query_req _ _ _)); cbn [effects requests outcome].
    + eexists. split; [reflexivity|]. split; [|intros; discriminate].
      destruct (tr _); cbn; by repeat constructor.
    + exists []. split; [reflexivity|]. split; [constructor|]. by split.
  - right. exists None, false. rewrite ack_then.
    destruct (tr (answer_callback_query_req _ _ _)); cbn [effects requests outcome].
    + eexists. split; [reflexivity|]. split; [|intros; discriminate].
      eapply Forall_impl; [apply requests_send_section|]. by intros q [Hq _].
    + exists []. split; [reflexivity|]. split; [constructor|]. by split.
Qed.

(** X11.  A callback gets no request at all -- not even an answer to the
    query -- exactly when its data passes none of the three filters; so it is
    for a query without data, with empty data, or with a payload that is
    neither [sect|...], [more|...] nor [back_to_menu].  The handler loop
    returns normally then. *)
Theorem unmatched_callback_is_ignored (c : CallbackQuery) (tr : Transport) (g : Globals) :
  (requests (effects (route_callback c tr g)) = []
   ↔ data_startswith c "sect|" = false ∧ data_startswith c "more|" = false
     ∧ data_is c "back_to_menu" = false)
  ∧ (data c = None ∨ data c = Some "" →
     route_callback c tr g = {| effects := []; globals := g; outcome := Ok tt |}).
Proof.
  split; [split|].
  - intros Hnone.
    destruct (route_callback_cases c tr g)
      as [(H1 & H2 & H3 & _)|[(alert & sa & Hr)|[(txt & rm & Hr)|(s & rm & _ & Hr)]]];
      [done|exfalso..]; rewrite Hr in Hnone; revert Hnone.
    + rewrite call_run. by destruct (tr _).
    + rewrite ack_then. by destruct (tr _).
    + rewrite ack_then. by destruct (tr _).
  - intros (H1 & H2 & H3). unfold route_callback. by rewrite H1, H2, H3.
  - intros [Hd|Hd]; unfold route_callback, data_startswith, data_is; by rewrite Hd.
Qed.

(** ** Starting up *)

(** X12.  The import succeeds exactly when [BOT_TOKEN] is set to a non-empty
    string that [Bot(token=...)] accepts and [content.json] is an object with
    a ["sections"] key.  The token comes first: without it the import raises
    [RuntimeError], and with one the bot refuses [ValidationError], whatever
    the file holds -- the file is not opened.  On success the globals hold
    the token, the document, its ["sections"] value as it is, ["buy_url"] and
    ["contact_url"] or [None], and the welcome text or "Привет!". *)
Theorem startup_succeeds_iff (check_token : string → bool) (env : Loader.Environ)
    (file : Loader.content_file) :
  (is_ok (Loader.startup check_token env file) = true
   ↔ (∃ tok, Loader.env_BOT_TOKEN env = Some tok ∧ tok ≠ "" ∧ check_token tok = true)
     ∧ ∃ d sections, file = Loader.Document (JObj d) ∧ d !! "sections" = Some sections)
  ∧ (Loader.env_BOT_TOKEN env = None ∨ Loader.env_BOT_TOKEN env = Some "" →
     ∃ msg, Loader.startup check_token env file = Raise (RuntimeError msg))
  ∧ (∀ tok, Loader.env_BOT_TOKEN env = Some tok → tok ≠ "" → check_token tok = false →
            Loader.startup check_token env file = Raise ValidationError)
  ∧ (∀ g, Loader.startup check_token env file = Ok g →
          Loader.env_BOT_TOKEN env = Some (Loader.TOKEN g)
          ∧ file = Loader.Document (JObj (Loader.CONTENT g))
          ∧ Loader.CONTENT g !! "sections" = Some (Loader.SECTIONS g)
          ∧ Loader.BUY_URL g = default JNull (Loader.CONTENT g !! "buy_url")
          ∧ Loader.CONTACT_URL g = default JNull (Loader.CONTENT g !! "contact_url")
          ∧ Loader.WELCOME_TEXT g
            = default (JStr "Привет!") (Loader.CONTENT g !! "welcome_text")).
Proof.
  unfold Loader.startup, Loader.read_token, Loader.make_bot.
  destruct (Loader.env_BOT_TOKEN env) as [tok|] eqn:Htok.
  2:{ split; [split|split; [|split]].
      - discriminate.
      - intros [(tok & [=] & _) _].
      - intros _. by eexists.
      - intros tok [=].
      - discriminate. }
  destruct (String.eqb_spec tok "") as [->|Hne].
  { split; [split|split; [|split]].
    - discriminate.
    - intros [(tok & [= <-] & Hne & _) _]. by destruct Hne.
    - intros _. by eexists.
    - intros tok [= <-] Hne. by destruct Hne.
    - discriminate. }
  destruct (check_token tok) eqn:Hcheck.
  2:{ split; [split|split; [|split]].
      - discriminate.
      - intros [(tok' & [= <-] & _ & Hc) _]. congruence.
      - intros [[=]|[= ->]]. by destruct Hne.
      - by intros tok' [= <-] _ _.
      - discriminate. }
  split; [split|split; [|split]].
  - intros Hok. split; [by exists tok|].
    destruct (Loader.load _ file tok) as [g|e] eqn:Hload; [|discriminate].
    apply load_ok_inv in Hload as (sections & Hfile & Hs & _ & _). by eauto.
  - intros [_ (d & sections & -> & Hs)].
    unfold Loader.load, Loader.subscript_sections, Loader.interface_mode.
    cbn [Loader.json_load]. destruct (Loader.env_INTERFACE_MODE env); by rewrite Hs.
  - intros [[=]|[= ->]]. by destruct Hne.
  - intros tok' [= <-] _ Hc. congruence.
  - intros g Hload. pose proof Hload as Hinv.
    apply load_ok_inv in Hinv as (sections & Hfile & Hs & Hsec & _).
    split; [|split; [exact Hfile|split; [by rewrite Hsec|]]].
    + revert Hload. unfold Loader.load. rewrite Hfile. cbn [Loader.json_load].
      destruct (Loader.interface_mode _ _); [|discriminate].
      unfold Loader.subscript_sections. rewrite Hs. by intros [= <-].
    + revert Hload. unfold Loader.load. rewrite Hfile at 1. cbn [Loader.json_load].
      destruct (Loader.interface_mode _ _); [|discriminate].
      unfold Loader.subscript_sections. rewrite Hs. intros [= <-]. by cbn.
Qed.

(** X13.  Which exception the load raises on a document that was read and
    parsed.  A document that is not an object gives [AttributeError] from
    [CONTENT.get] when the mode is not overridden, and [TypeError] from the
    subscript when it is; an object without ["sections"] gives [KeyError] on
    that key; nothing else is raised after [json.load] has returned. *)
Theorem load_error_cases (getenv_mode : option string) (v : json) (tok : string)
    (e : exn) :
  Loader.load getenv_mode (Loader.Document v) tok = Raise e
  ↔ ((∀ d, v ≠ JObj d)
     ∧ ((getenv_mode = None ∧ e = AttributeError)
        ∨ (is_Some getenv_mode ∧ e = TypeError)))
    ∨ (∃ d, v = JObj d ∧ d !! "sections" = None ∧ e = KeyError "sections").
Proof.
  unfold Loader.load, Loader.interface_mode, Loader.subscript_sections.
  cbn [Loader.json_load]. split.
  - destruct v as [| | | | |d].
    6:{ destruct getenv_mode; destruct (d !! "sections") eqn:Hs; try discriminate;
          intros [= <-]; right; by exists d. }
    all: destruct getenv_mode as [mode|]; intros [= <-]; left;
      (split; [intros d; discriminate|]);
      [right; by split; [eexists|] | left; by split].
  - intros [[Hv Hcase]|(d & -> & Hs & ->)].
    + destruct v as [| | | | |d]; [..|by destruct (Hv d)];
        destruct Hcase as [[-> ->]|[[mode ->] ->]]; reflexivity.
    + destruct getenv_mode; by rewrite Hs.
Qed.

(** ** Only "menu" is a mode of its own *)

Lemma mode_eqb (mode : string) : mode ≠ "menu" → String.eqb mode "menu" = false.
Proof. intros Hne. by apply String.eqb_neq. Qed.

(** Both runs make the same single request; its fate decides both. *)
Ltac same_leaf :=
  unfold cmd_start, cmd_help, buy_handler, contact_handler, help_text, cmd_help,
    back_handler, echo, build_sections_reply_keyboard, build_inline_sections_keyboard;
  run_bot;
  cbn [with_mode INTERFACE_MODE CONTENT SECTIONS BUY_URL CONTACT_URL WELCOME_TEXT];
  repeat match goal with |- context [if ?b then _ else _] => destruct b end;
  split; reflexivity.

Lemma route_message_mode (is_command : list string → Message → bool) (m : Message)
    (tr : Transport) (g : Globals) (mode : string) :
  mode ≠ "menu" →
  effects (route_message is_command m tr (with_mode mode g))
    = effects (route_message is_command m tr (with_mode "inline" g))
  ∧ outcome (route_message is_command m tr (with_mode mode g))
    = outcome (route_message is_command m tr (with_mode "inline" g)).
Proof.
  intros Hmode%mode_eqb. unfold route_message.
  destruct (negb (is_text m)); [split; reflexivity|].
  destruct (is_command ["start"] m); [same_leaf|].
  destruct (is_command ["help"] m); [same_leaf|].
  destruct (text_is m "Выбрать раздел").
  { unfold show_sections_menu. rewrite !bind_global.
    cbn [with_mode INTERFACE_MODE]. rewrite Hmode.
    change (String.eqb "inline" "menu") with false. cbv iota. same_leaf. }
  destruct (text_is m "Купить планер"); [same_leaf|].
  destruct (text_is m "Связаться с автором"); [same_leaf|].
  destruct (text_is m "Помощь"); [same_leaf|].
  destruct (text_is m "Назад"); [same_leaf|].
  rewrite !bind_global. cbn [with_mode SECTIONS].
  destruct (any_title (SECTIONS g) m); [|same_leaf].
  unfold section_selected. rewrite !bind_global. cbn [with_mode SECTIONS].
  destruct (section_by_title (SECTIONS g) m); [|split; reflexivity].
  apply send_section_mode.
Qed.

Lemma route_callback_mode (c : CallbackQuery) (tr : Transport) (g : Globals)
    (mode : string) :
  mode ≠ "menu" →
  effects (route_callback c tr (with_mode mode g))
    = effects (route_callback c tr (with_mode "inline" g))
  ∧ outcome (route_callback c tr (with_mode mode g))
    = outcome (route_callback c tr (with_mode "inline" g)).
Proof.
  intros Hmode%mode_eqb. unfold route_callback.
  destruct (data_startswith c "sect|") eqn:Hsect.
  { destruct (data_startswith_inv c _ Hsect) as [x Hd]. unfold inline_section_callback.
    rewrite !(bind_ok _ _ tr _ _ (callback_sid_sect c x tr _ Hd)), !bind_global.
    cbn [with_mode SECTIONS].
    destruct (section_by_id (SECTIONS g) x) as [s|]; [|same_leaf].
    rewrite !ack_then. destruct (tr (answer_callback_query_req _ _ _));
      [|split; reflexivity].
    cbn [effects outcome].
    destruct (send_section_mode (message_chat_id c) s (Some (Inline (detail_keyboard s)))
                tr (with_mode "inline" g) (with_mode mode g)) as [-> ->].
    split; reflexivity. }
  destruct (data_startswith c "more|") eqn:Hmore.
  { destruct (data_startswith_inv c _ Hmore) as [x Hd]. unfold inline_more_callback.
    rewrite !(bind_ok _ _ tr _ _ (callback_sid_more c x tr _ Hd)), !bind_global.
    cbn [with_mode SECTIONS].
    destruct (section_by_id (SECTIONS g) x) as [s|]; same_leaf. }
  destruct (data_is c "back_to_menu"); [|split; reflexivity].
  unfold back_callback. run_bot.
  destruct (tr (answer_callback_query_req _ _ _)); [|split; reflexivity].
  cbn [effects globals outcome with_mode INTERFACE_MODE]. rewrite Hmode.
  change (String.eqb "inline" "menu") with false. cbv iota. same_leaf.
Qed.

(** X14.  [INTERFACE_MODE] is only ever compared with "menu".  Any other
    value -- "inline", the empty string, "Menu", a misspelling -- serves
    every update exactly as "inline" does: same requests, same log lines,
    same outcome. *)
Theorem every_other_mode_is_inline (is_command : list string → Message → bool)
    (u : Update) (tr : Transport) (g : Globals) (mode : string) :
  mode ≠ "menu" →
  effects (process_update is_command u tr (with_mode mode g))
    = effects (process_update is_command u tr (with_mode "inline" g))
  ∧ outcome (process_update is_command u tr (with_mode mode g))
    = outcome (process_update is_command u tr (with_mode "inline" g)).
Proof.
  intros Hmode. destruct u as [m|c]; cbn [process_update];
    [by apply route_message_mode | by apply route_callback_mode].
Qed.

Lemma every_other_mode_is_inline_witness :
  "Menu" ≠ "menu"
  ∧ effects (process_update slash_command (UMessage (text_message 7 "Выбрать раздел"))
               accept_all (with_mode "Menu" (sample_globals "menu" [wings; habits])))
    = effects (process_update slash_command (UMessage (text_message 7 "Выбрать раздел"))
                 accept_all (with_mode "inline" (sample_globals "menu" [wings; habits]))).
Proof.
  assert (H1 : "Menu" ≠ "menu") by discriminate.
  split; [exact H1|].
  exact (proj1 (every_other_mode_is_inline slash_command
                  (UMessage (text_message 7 "Выбрать раздел")) accept_all
                  (sample_globals "menu" [wings; habits]) "Menu" H1)).
Defined.

(** ** Links that are not configured *)

(** X15.  The buttons "Купить планер" and "Связаться с автором" answer with
    the configured address after a fixed lead-in, without keyboard.  When
    the document has no ["buy_url"] or no ["contact_url"] the handler does
    not fail or stay silent: it sends the lead-in followed by the word
    "None". *)
Theorem link_replies (is_command : list string → Message → bool) (tr : Transport)
    (g : Globals) (m : Message) :
  free_text is_command m →
  (Aiogram.text m = Some "Купить планер" →
   requests (effects (route_message is_command m tr g))
   = [send_message_req (chat_id m)
        ("Перейти на маркетплейс: " +:+ default "None" (BUY_URL g)) None])
  ∧ (Aiogram.text m = Some "Связаться с автором" →
     requests (effects (route_message is_command m tr g))
     = [send_message_req (chat_id m) ("Связаться: " +:+ default "None" (CONTACT_URL g)) None]).
Proof.
  intros Hfree. split; intros Ht.
  - rewrite (route_fixed is_command m _ Hfree Ht) by (apply list_elem_of_In; cbn; tauto).
    unfold fixed_handler, buy_handler. cbn [String.eqb Ascii.eqb Bool.eqb].
    rewrite bind_global. unfold message_answer, bot_send_message. rewrite call_run.
    destruct (BUY_URL g); by destruct (tr _).
  - rewrite (route_fixed is_command m _ Hfree Ht) by (apply list_elem_of_In; cbn; tauto).
    unfold fixed_handler, contact_handler. cbn [String.eqb Ascii.eqb Bool.eqb].
    rewrite bind_global. unfold message_answer, bot_send_message. rewrite call_run.
    destruct (CONTACT_URL g); by destruct (tr _).
Qed.

Lemma link_replies_witness :
  free_text slash_command (text_message 7 "Связаться с автором")
  ∧ requests (effects (route_message slash_command (text_message 7 "Связаться с автором")
                         accept_all (sample_globals "menu" [wings])))
    = [send_message_req 7 "Связаться: None" None].
Proof.
  assert (H1 : free_text slash_command (text_message 7 "Связаться с автором"))
    by (split; reflexivity).
  split; [exact H1|].
  exact (proj2 (link_replies slash_command accept_all (sample_globals "menu" [wings])
                  (text_message 7 "Связаться с автором") H1) eq_refl).
Defined.

(** ** The first match wins *)

Lemma find_first_iff {A : Type} (p : A → bool) (l : list A) (x : A) :
  List.find p l = Some x
  ↔ ∃ pre post, l = pre ++ x :: post ∧ p x = true ∧ ∀ y, y ∈ pre → p y = false.
Proof.
  split.
  - induction l as [|a l IH]; cbn [List.find]; [discriminate|].
    destruct (p a) eqn:Hpa.
    + intros [= ->]. exists [], l. split; [reflexivity|]. split; [exact Hpa|].
      intros y Hy. by apply elem_of_nil in Hy.
    + intros Hfind. destruct (IH Hfind) as (pre & post & -> & Hpx & Hpre).
      exists (a :: pre), post. split; [reflexivity|]. split; [exact Hpx|].
      intros y [->|Hy]%elem_of_cons; [exact Hpa | by apply Hpre].
  - intros (pre & post & -> & Hpx & Hpre).
    induction pre as [|a pre IH]; cbn [List.find app].
    + by rewrite Hpx.
    + rewrite (Hpre a) by left. apply IH. intros y Hy. apply Hpre. by right.
Qed.

(** X16.  [next(...)] takes the first match.  The section a callback id
    selects is the first of the catalog with that id, and the section a
    message text selects is the first with that title: a section that
    follows another with the same id, or the same title, is never the one
    selected. *)
Theorem first_match_wins (ss : list Content.PlannerSection) (s : Content.PlannerSection) :
  (∀ sid, section_by_id ss sid = Some s
          ↔ ∃ pre post, ss = pre ++ s :: post ∧ Content.id s = sid
                        ∧ ∀ s', s' ∈ pre → Content.id s' ≠ sid)
  ∧ (∀ m t, Aiogram.text m = Some t →
            (section_by_title ss m = Some s
             ↔ ∃ pre post, ss = pre ++ s :: post ∧ Content.title s = t
                           ∧ ∀ s', s' ∈ pre → Content.title s' ≠ t)).
Proof.
  split.
  - intros sid. unfold section_by_id. rewrite find_first_iff.
    split; intros (pre & post & Hss & Hs & Hpre); exists pre, post;
      (split; [exact Hss|]).
    + split; [by apply String.eqb_eq|]. intros s' Hs'. by apply String.eqb_neq, Hpre.
    + split; [by apply String.eqb_eq|]. intros s' Hs'. by apply String.eqb_neq, Hpre.
  - intros m t Ht. unfold section_by_title. rewrite find_first_iff.
    split; intros (pre & post & Hss & Hs & Hpre); exists pre, post;
      (split; [exact Hss|]).
    + rewrite (text_is_label m _ _ Ht) in Hs. apply String.eqb_eq in Hs.
      split; [done|]. intros s' Hs' Heq. specialize (Hpre s' Hs').
      rewrite (text_is_label m _ _ Ht) in Hpre. apply String.eqb_neq in Hpre. congruence.
    + rewrite (text_is_label m _ _ Ht). split; [apply String.eqb_eq; congruence|].
      intros s' Hs'. rewrite (text_is_label m _ _ Ht). apply String.eqb_neq.
      intros Heq. by apply (Hpre s' Hs').
Qed.

(** ** Entries that are not in the content format *)

Lemma section_of_json_keys (j : json) (s : Content.PlannerSection) :
  Content.section_of_json j = Some s →
  ∃ d, j = JObj d ∧ d !! "id" = Some (JStr (Content.id s))
       ∧ d !! "title" = Some (JStr (Content.title s)).
Proof.
  unfold Content.section_of_json. destruct j as [| | | | |d]; try discriminate.
  destruct (d !! "id") as [[| | |i| |]|] eqn:Hid; try discriminate.
  destruct (d !! "title") as [[| | |t| |]|] eqn:Ht; try discriminate.
  cbn [Content.str mbind option_bind].
  destruct (Content.opt_str (d !! "text")) as [x|]; [simpl | simpl; discriminate].
  destruct (Content.nullable_str (get_none d "image")) as [im|];
    [simpl | simpl; discriminate].
  destruct (Content.opt_bool (d !! "has_more")) as [h|]; [simpl | simpl; discriminate].
  destruct (Content.nullable_str (get_none d "more_text")) as [mt|];
    [simpl | simpl; discriminate].
  intros [= <-]. exists d. by rewrite Hid.
Qed.

Lemma next_by_agrees (key : string) (f : Content.PlannerSection → string)
    (l : list json) (ss : list Content.PlannerSection) (wanted : string) :
  (∀ j s, Content.section_of_json j = Some s → Raw.subscript j key = Ok (JStr (f s))) →
  Forall2 (λ j s, Content.section_of_json j = Some s) l ss →
  match List.find (λ s, String.eqb (f s) wanted) ss with
  | Some s => ∃ j, Raw.next_by key wanted l = Ok (Some j)
                   ∧ Content.section_of_json j = Some s
  | None => Raw.next_by key wanted l = Ok None
  end.
Proof.
  intros Hkey Hall. induction Hall as [|j s l ss Hjs Hall IH]; [reflexivity|].
  cbn [List.find Raw.next_by]. rewrite (Hkey j s Hjs). cbn [Raw.eq_str].
  destruct (String.eqb (f s) wanted); [by exists j | exact IH].
Qed.

(** X17.  The lookups of the handlers, on the entries as the import left
    them.  On a catalog in the content format they are the lookups on the
    typed sections: [next(...)] by [id], and by [title], finds the entry of
    the section found there, or nothing.  On any catalog, an object without
    the key that is met before a match makes the lookup raise [KeyError] on
    that key -- so with such an entry first, every callback [sect|...] or
    [more|...] ends in [KeyError], whatever id it names. *)
Theorem raw_lookup_cases (l : list json) (wanted : string) :
  (∀ ss, Content.sections_of_json (JArr l) = Some ss →
         match section_by_id ss wanted with
         | Some s => ∃ j, Raw.next_by "id" wanted l = Ok (Some j)
                          ∧ Content.section_of_json j = Some s
         | None => Raw.next_by "id" wanted l = Ok None
         end
         ∧ ∀ m, Aiogram.text m = Some wanted →
                match section_by_title ss m with
                | Some s => ∃ j, Raw.next_by "title" wanted l = Ok (Some j)
                                 ∧ Content.section_of_json j = Some s
                | None => Raw.next_by "title" wanted l = Ok None
                end)
  ∧ (∀ key pre d post,
       l = pre ++ JObj d :: post →
       d !! key = None →
       (∀ j, j ∈ pre → ∃ v, Raw.subscript j key = Ok v ∧ Raw.eq_str v wanted = false) →
       Raw.next_by key wanted l = Raise (KeyError key)).
Proof.
  split.
  - intros ss Hss. cbn [Content.sections_of_json] in Hss. apply mapM_Some in Hss.
    split.
    + apply (next_by_agrees "id" Content.id); [|exact Hss].
      intros j s Hjs. destruct (section_of_json_keys j s Hjs) as (d & -> & Hid & _).
      cbn [Raw.subscript]. by rewrite Hid.
    + intros m Ht. unfold section_by_title.
      assert (Hfind : List.find (λ s, text_is m (Content.title s)) ss
                      = List.find (λ s, String.eqb (Content.title s) wanted) ss).
      { clear Hss. induction ss as [|s ss IH]; [reflexivity|]. cbn [List.find].
        rewrite (text_is_label m _ _ Ht), String.eqb_sym, IH. reflexivity. }
      rewrite Hfind. apply (next_by_agrees "title" Content.title); [|exact Hss].
      intros j s Hjs. destruct (section_of_json_keys j s Hjs) as (d & -> & _ & Htitle).
      cbn [Raw.subscript]. by rewrite Htitle.
  - intros key pre d post -> Hkey Hpre.
    induction pre as [|j pre IH]; cbn [app Raw.next_by Raw.subscript].
    + by rewrite Hkey.
    + destruct (Hpre j) as (v & -> & ->); [left|].
      apply IH. intros j' Hj'. apply Hpre. by right.
Qed.

(** The document with one entry without keys: the import lets it through,
    and no id can be looked up in it. *)
Example keyless_lookup (wanted : string) :
  Raw.next_by "id" wanted [JObj ∅] = Raise (KeyError "id")
  ∧ Raw.next_by "title" wanted [JObj ∅] = Raise (KeyError "title").
Proof. split; reflexivity. Qed.
